(** * LLFileSystem: the per-asset byte-stream accessor of the viewer cache

    A shallow embedding of [indra/llfilesystem/llfilesystem.cpp].  The
    accessor keeps no file handle between calls: every method resolves the
    cache path again, opens the store through the C stream library, works
    on it and closes it.  The embedding therefore has three layers:

    - machine integers ([S32], [size_t]) as [Z] with their wrap-around;
    - the operating system as seen through the C stream calls the source
      makes ([fopen], [fseek], [fread], [fwrite], [ftell], [fclose]) and
      through [LLFile::stat], [LLFile::remove], [LLFile::rename], acting on
      an explicit [World];
    - the methods of [LLFileSystem], written in a small state monad over
      that world, one definition per method and in the order of the source.
*)

From Stdlib Require Import ZArith Lia.
From Stdlib Require Import Strings.Byte.
From stdpp Require Import gmap strings list.

Open Scope Z_scope.

(** ** Machine integers *)

Definition INT_MAX : Z := 2147483647.
Definition INT_MIN : Z := -2147483648.

(** Conversion to [S32], a 32-bit two's complement integer. *)
Definition s32 (z : Z) : Z := (z + 2 ^ 31) mod 2 ^ 32 - 2 ^ 31.

(** Conversion to [size_t] (64 bits), as happens when an [S32] count is
    handed to [fread] or [fwrite]. *)
Definition size_t (z : Z) : Z := z mod 2 ^ 64.

Definition is_S32 (z : Z) : Prop := INT_MIN <= z <= INT_MAX.

(** [BOOL] is the legacy integer boolean; only [TRUE] and [FALSE] occur. *)
Abbreviation BOOL := bool (only parsing).
Abbreviation TRUE := true (only parsing).
Abbreviation FALSE := false (only parsing).

(** ** The world: a volume of named nodes *)

(** A path names a regular file with its bytes, or a directory, of which
    only the size that [stat] reports is kept. *)
Inductive Node : Type :=
  | RegularFile (content : list byte)
  | Directory (dir_size : nat).

(** The lines the source (and [LLFile]) send to [LL_WARNS]. *)
Inductive LogLine : Type :=
  | Couldnt (desc filename : string) (errn : Z)
  | FailedToRename (old_id new_id : string) (errn : Z)
  | SeekPastEnd
  | SeekPastBeginning.

Record World : Type := mkWorld {
  nodes : gmap string Node;      (* what is on the volume *)
  free_space : nat;              (* bytes the volume can still take *)
  errno : Z;                     (* the C library's error indicator *)
  touched : list string;         (* paths whose access time was refreshed *)
  llwarns : list LogLine;        (* the warning log, oldest first *)
  bufsiz : nat;                  (* size of the buffer a stream writes
                                    through; 0 when streams are unbuffered *)
  stored_total : nat             (* bytes the volume has taken in so far *)
}.

Definition set_nodes (m : gmap string Node) (w : World) : World :=
  mkWorld m (free_space w) (errno w) (touched w) (llwarns w)
    (bufsiz w) (stored_total w).
Definition set_free_space (n : nat) (w : World) : World :=
  mkWorld (nodes w) n (errno w) (touched w) (llwarns w)
    (bufsiz w) (stored_total w).
Definition set_errno (e : Z) (w : World) : World :=
  mkWorld (nodes w) (free_space w) e (touched w) (llwarns w)
    (bufsiz w) (stored_total w).
Definition add_touched (p : string) (w : World) : World :=
  mkWorld (nodes w) (free_space w) (errno w) (touched w ++ [p]) (llwarns w)
    (bufsiz w) (stored_total w).
Definition add_llwarn (l : LogLine) (w : World) : World :=
  mkWorld (nodes w) (free_space w) (errno w) (touched w) (llwarns w ++ [l])
    (bufsiz w) (stored_total w).
Definition add_stored (k : nat) (w : World) : World :=
  mkWorld (nodes w) (free_space w) (errno w) (touched w) (llwarns w)
    (bufsiz w) (stored_total w + k).

(** The bytes stored under a path; nothing when it is no regular file. *)
Definition content_at (w : World) (p : string) : list byte :=
  match nodes w !! p with
  | Some (RegularFile c) => c
  | _ => []
  end.

(** The byte length [stat] reports for a path, 0 when it names nothing. *)
Definition store_size (w : World) (p : string) : Z :=
  match nodes w !! p with
  | Some (RegularFile c) => Z.of_nat (length c)
  | Some (Directory n) => Z.of_nat n
  | None => 0
  end.

(** ** A state monad over the world *)

Definition OS (A : Type) : Type := World -> A * World.

Definition ret {A : Type} (a : A) : OS A := fun w => (a, w).

Definition bind {A B : Type} (m : OS A) (k : A -> OS B) : OS B :=
  fun w => let (a, w') := m w in k a w'.

Declare Scope os_scope.
Delimit Scope os_scope with os.
Notation "x <- m ;; k" := (bind m (fun x => k))
  (at level 100, m at next level, right associativity) : os_scope.
Notation "m ;; k" := (bind m (fun _ => k))
  (at level 100, right associativity) : os_scope.
Open Scope os_scope.

Definition get_world : OS World := fun w => (w, w).
Definition modify (f : World -> World) : OS unit := fun w => (tt, f w).

Definition LL_WARNS (l : LogLine) : OS unit := modify (add_llwarn l).

(** ** Error numbers and [stat] mode bits *)

Definition ENOENT : Z := 2.
Definition ENOTDIR : Z := 20.
Definition EISDIR : Z := 21.
Definition EINVAL : Z := 22.
Definition ENOSPC : Z := 28.
Definition ENOTEMPTY : Z := 39.

Definition S_IFMT : Z := 0xF000.     (* 0170000 *)
Definition S_IFDIR : Z := 0x4000.    (* 0040000 *)
Definition S_IFREG : Z := 0x8000.    (* 0100000 *)

Definition S_ISREG (mode : Z) : bool := Z.land mode S_IFMT =? S_IFREG.

Record llstat : Type := mk_llstat { st_mode : Z; st_size : Z }.

(** ** The C stream library *)

(** An open stream: the path it was opened on, the offset in the file up
    to which the stream has read or stored, whether writes are forced to
    the end of the file, and the bytes [fwrite] has accepted into the
    stream buffer and that are not stored yet. *)
Record FILE : Type := mkFILE {
  f_path : string;
  f_offset : Z;
  f_append : bool;
  f_pending : list byte
}.

Definition EOF : Z := -1.

Definition SEEK_SET : Z := 0.
Definition SEEK_CUR : Z := 1.
Definition SEEK_END : Z := 2.

Definition fail {A : Type} (e : Z) (a : A) : OS A :=
  modify (set_errno e) ;; ret a.

(** Create the file when absent, empty it when present. *)
Definition truncate_node (filename : string) : OS unit :=
  w <- get_world ;;
  modify (set_nodes (<[filename := RegularFile []]> (nodes w))) ;;
  modify (set_free_space (free_space w + length (content_at w filename))%nat).

(** [fopen] for the four mode strings the source uses.  File permissions
    are not part of the world: a regular file can be opened in every mode.
    - ["rb"], ["r+b"]: the regular file must exist; the stream starts at 0.
    - ["wb"]: the file is created or emptied; a directory cannot be opened.
    - ["a+b"]: the file is created when absent and kept otherwise, and
      every write goes to the end of the file.  Where an appending stream
      stands before its first write is left to the implementation by the C
      standard; glibc and the Microsoft runtime put an ["a+"] stream at
      offset 0, where [ftell] finds it until something is written, and so
      does this model. *)
Definition fopen (filename mode : string) : OS (option FILE) :=
  w <- get_world ;;
  if String.eqb mode "rb" || String.eqb mode "r+b" then
    match nodes w !! filename with
    | Some (RegularFile _) => ret (Some (mkFILE filename 0 false []))
    | Some (Directory _) => fail EISDIR None
    | None => fail ENOENT None
    end
  else if String.eqb mode "wb" then
    match nodes w !! filename with
    | Some (Directory _) => fail EISDIR None
    | _ => truncate_node filename ;; ret (Some (mkFILE filename 0 false []))
    end
  else if String.eqb mode "a+b" then
    match nodes w !! filename with
    | Some (Directory _) => fail EISDIR None
    | Some (RegularFile _) => ret (Some (mkFILE filename 0 true []))
    | None => truncate_node filename ;; ret (Some (mkFILE filename 0 true []))
    end
  else fail EINVAL None.

(** [fseek]: a negative resulting offset is refused with [EINVAL]; seeking
    beyond the end of the file is allowed. *)
Definition fseek (file : FILE) (offset whence : Z) : OS (Z * FILE) :=
  w <- get_world ;;
  let base :=
    if whence =? SEEK_SET then 0
    else if whence =? SEEK_CUR then f_offset file
    else Z.of_nat (length (content_at w (f_path file))) in
  if base + offset <? 0 then fail EINVAL (-1, file)
  else ret (0, mkFILE (f_path file) (base + offset) (f_append file)
                 (f_pending file)).

(** [fread(buffer, 1, nmemb, file)]: the bytes from the stream offset on, at
    most [nmemb] of them; their number is the value [fread] returns and the
    list is what it leaves at the start of [buffer]. *)
Definition fread (nmemb : Z) (file : FILE) : OS (list byte * FILE) :=
  w <- get_world ;;
  let data := take (Z.to_nat nmemb)
                (drop (Z.to_nat (f_offset file)) (content_at w (f_path file))) in
  ret (data, mkFILE (f_path file) (f_offset file + Z.of_nat (length data))
               (f_append file) (f_pending file)).

(** The bytes of a file after [data] was written at offset [start]: what
    lies before is kept, a gap beyond the old end reads as zero bytes, and
    what lies behind the written span is kept. *)
Definition spliced (old : list byte) (start : nat) (data : list byte)
  : list byte :=
  take start old ++ replicate (start - length old) x00
    ++ data ++ drop (start + length data) old.

(** What the volume does with [data] handed to it for offset [start] of
    the file at [path] (the system call under the stream library).
    Overwriting stored bytes needs no room; bytes beyond the old end are
    taken from the free space of the volume, and the transfer is cut short
    when that runs out.  A gap between the old end and the offset reads as
    zero bytes.  The value returned is the number of bytes stored. *)
Definition store_bytes (path : string) (start : nat) (data : list byte)
  : OS nat :=
  w <- get_world ;;
  let old := content_at w path in
  let room := (length old - start + free_space w)%nat in
  let stored := take room data in
  let k := length stored in
  if (k =? 0)%nat then ret 0%nat
  else
    modify (set_nodes
              (<[path := RegularFile (spliced old start stored)]> (nodes w))) ;;
    modify (set_free_space (free_space w - (k - (length old - start)))%nat) ;;
    modify (add_stored k) ;;
    ret k.

(** Of [n] bytes given to [fwrite] on a stream whose buffer is empty, the
    number that bypasses the buffer and goes to the volume at once: the
    whole blocks of [bufsiz] bytes (glibc and the Microsoft runtime agree
    on this), everything when the stream is unbuffered, and nothing when
    the bytes fit into the buffer. *)
Definition direct_count (bufsiz n : nat) : nat :=
  if (bufsiz =? 0)%nat then n else (n - n mod bufsiz)%nat.

(** Of [n] bytes given to [fwrite], the number it reports as written when
    the volume can take [room] of them: all of them once the whole blocks
    are stored, the rest being held in the buffer. *)
Definition accepted_count (bufsiz room n : nat) : nat :=
  if (room <? direct_count bufsiz n)%nat then room else n.

(** Where the next bytes of a stream go: to the end of the file for an
    appending stream, to the stream offset otherwise. *)
Definition write_offset (file : FILE) : OS nat :=
  w <- get_world ;;
  ret (if f_append file then length (content_at w (f_path file))
       else Z.to_nat (f_offset file)).

(** [fwrite(buffer, 1, nmemb, file)] on a stream that holds no unstored
    bytes, as every stream of the source does when it is written to.  The
    whole blocks go to the volume at once; when the volume takes them all,
    the rest is kept in the stream buffer and [fwrite] returns [nmemb];
    when the volume takes fewer, [fwrite] returns the number it took.  So
    a write that fits into the buffer is accepted in full whatever the
    room on the volume. *)
Definition fwrite (buffer : list byte) (nmemb : Z) (file : FILE) : OS (Z * FILE) :=
  w <- get_world ;;
  let want := take (Z.to_nat nmemb) buffer in
  if (length want =? 0)%nat then ret (0, file)
  else
    start <- write_offset file ;;
    let direct := direct_count (bufsiz w) (length want) in
    k <- store_bytes (f_path file) start (take direct want) ;;
    if (k <? direct)%nat then
      modify (set_errno ENOSPC) ;;
      ret (Z.of_nat k,
           mkFILE (f_path file) (Z.of_nat (start + k)) (f_append file) [])
    else
      ret (Z.of_nat (length want),
           mkFILE (f_path file) (Z.of_nat (start + k)) (f_append file)
             (drop direct want)).

(** [ftell]: the stream position, the bytes still in the buffer counted. *)
Definition ftell (file : FILE) : Z :=
  f_offset file + Z.of_nat (length (f_pending file)).

(** [fclose]: the bytes still in the buffer go to the volume; [EOF] is
    returned when it does not take them all. *)
Definition fclose (file : FILE) : OS Z :=
  match f_pending file with
  | [] => ret 0
  | pending =>
      start <- write_offset file ;;
      k <- store_bytes (f_path file) start pending ;;
      if (k <? length pending)%nat then fail ENOSPC EOF else ret 0
  end.

(** ** The [LLFile] wrappers, [LLDir] and the disk cache *)

(** Modelled from the spec: [LLFile::fopen] (llfile.cpp is not among the
    sources); a thin wrapper that opens the store with the given mode
    string and yields no stream when the store cannot be opened. *)
Definition LLFile_fopen (filename mode : string) : OS (option FILE) :=
  fopen filename mode.

(** Modelled from the spec: [LLFile::stat] (llfile.cpp is not among the
    sources); it reports the kind and the byte length of what the path
    names, and fails (without a warning) when the path names nothing. *)
Definition LLFile_stat (filename : string) : OS (Z * llstat) :=
  w <- get_world ;;
  match nodes w !! filename with
  | Some (RegularFile _) =>
      ret (0, mk_llstat (Z.lor S_IFREG 0x1A4) (store_size w filename))
  | Some (Directory _) =>
      ret (0, mk_llstat (Z.lor S_IFDIR 0x1ED) (store_size w filename))
  | None => fail ENOENT (-1, mk_llstat 0 0)
  end.

(** Modelled from the spec: [LLFile::remove] (llfile.cpp is not among the
    sources); it deletes the store when present; a failure is logged as a
    warning unless its error number is the one the caller passed as
    expected.  Directories here stand for populated ones and are not
    removed. *)
Definition LLFile_remove (filename : string) (supress_error : Z) : OS Z :=
  w <- get_world ;;
  match nodes w !! filename with
  | Some (RegularFile c) =>
      modify (set_nodes (delete filename (nodes w))) ;;
      modify (set_free_space (free_space w + length c)%nat) ;;
      ret 0
  | other =>
      let errn := match other with None => ENOENT | _ => ENOTEMPTY end in
      modify (set_errno errn) ;;
      (if errn =? supress_error then ret tt
       else LL_WARNS (Couldnt "remove" filename errn)) ;;
      ret (-1)
  end.

(** Modelled from the spec: [LLFile::rename] (llfile.cpp is not among the
    sources); it moves the store from the old path to the new one and
    reports a failure through its result and [errno].  A regular file
    replaces a regular file (whose room is given back); nothing replaces a
    directory, and a directory replaces nothing that exists. *)
Definition LLFile_rename (filename newname : string) : OS Z :=
  w <- get_world ;;
  match nodes w !! filename, nodes w !! newname with
  | None, _ => fail ENOENT (-1)
  | Some _, Some (Directory _) =>
      if String.eqb filename newname then ret 0 else fail EISDIR (-1)
  | Some (Directory _), Some (RegularFile _) => fail ENOTDIR (-1)
  | Some n, _ =>
      if String.eqb filename newname then ret 0
      else
        modify (set_nodes (<[newname := n]> (delete filename (nodes w)))) ;;
        modify (set_free_space (free_space w + length (content_at w newname))%nat) ;;
        ret 0
  end.

(** Modelled from the spec: [LLDir::fileExists] (lldir.cpp is not among the
    sources); true when a regular file exists at the path. *)
Definition fileExists (filename : string) : OS bool :=
  p <- LLFile_stat filename ;;
  let (rc, file_stat) := p in
  ret ((rc =? 0) && S_ISREG (st_mode file_stat)).

(** Modelled from the spec: [LLDiskCache::updateFileAccessTime]
    (lldiskcache.cpp is not among the sources); it refreshes the
    access-time bookkeeping of the path and changes no store. *)
Definition updateFileAccessTime (filename : string) : OS unit :=
  modify (add_touched filename).

(** ** The disk cache interface

    The identity types and the path resolver belong to other units:
    [LLUUID] with its canonical string ([LLUUID::toString]),
    [LLAssetType::EType], and [LLDiskCache::metaDataToFilepath]. *)
Class DiskCache : Type := {
  LLUUID : Type;
  EType : Type;
  toString : LLUUID -> string;
  metaDataToFilepath : string -> EType -> string -> string
}.

(** ** The accessor *)

Section Accessor.

Context {dc : DiskCache}.

Definition READ : Z := 0x00000001.
Definition WRITE : Z := 0x00000002.
Definition READ_WRITE : Z := 0x00000003.
Definition APPEND : Z := 0x00000006.

(** The data members of the class. *)
Record LLFileSystem : Type := mkLLFileSystem {
  mFileID : LLUUID;
  mFileType : EType;
  mPosition : Z;   (* S32 *)
  mBytesRead : Z;  (* S32 *)
  mMode : Z        (* S32 *)
}.

Definition set_mPosition (p : Z) (s : LLFileSystem) : LLFileSystem :=
  mkLLFileSystem (mFileID s) (mFileType s) p (mBytesRead s) (mMode s).
Definition set_mBytesRead (n : Z) (s : LLFileSystem) : LLFileSystem :=
  mkLLFileSystem (mFileID s) (mFileType s) (mPosition s) n (mMode s).
Definition set_identity (id : LLUUID) (ty : EType) (s : LLFileSystem)
  : LLFileSystem :=
  mkLLFileSystem id ty (mPosition s) (mBytesRead s) (mMode s).

(** The file name every method builds first. *)
Definition filename_of (file_id : LLUUID) (file_type : EType) : string :=
  let extra_info := "" in
  metaDataToFilepath (toString file_id) file_type extra_info.

(** [LLFileSystem::LLFileSystem] *)
Definition LLFileSystem_new (file_id : LLUUID) (file_type : EType) (mode : Z)
  : OS LLFileSystem :=
  let this := mkLLFileSystem file_id file_type 0 0 mode in
  if mode =? READ then
    let filename := filename_of (mFileID this) (mFileType this) in
    exists_ <- fileExists filename ;;
    (if exists_ : bool then updateFileAccessTime filename else ret tt) ;;
    ret this
  else ret this.

(** [LLFileSystem::getExists] *)
Definition getExists (file_id : LLUUID) (file_type : EType) : OS bool :=
  let filename := filename_of file_id file_type in
  p <- LLFile_stat filename ;;
  let (rc, file_stat) := p in
  if rc =? 0 then
    ret (S_ISREG (st_mode file_stat) && (0 <? st_size file_stat))
  else ret false.

(** [LLFileSystem::removeFile] *)
Definition removeFile (file_id : LLUUID) (file_type : EType)
    (suppress_error : Z) : OS bool :=
  let filename := filename_of file_id file_type in
  LLFile_remove filename suppress_error ;;
  ret true.

(** [LLFileSystem::renameFile] *)
Definition renameFile (old_file_id : LLUUID) (old_file_type : EType)
    (new_file_id : LLUUID) (new_file_type : EType) : OS BOOL :=
  let old_filename := filename_of old_file_id old_file_type in
  let new_id_str := toString new_file_id in
  let new_filename := metaDataToFilepath new_id_str new_file_type "" in
  (* Rename needs the new file to not exist. *)
  removeFile new_file_id new_file_type ENOENT ;;
  rc <- LLFile_rename old_filename new_filename ;;
  (if negb (rc =? 0) then
     w <- get_world ;;
     LL_WARNS (FailedToRename (toString old_file_id) new_id_str (errno w))
   else ret tt) ;;
  ret TRUE.

(** [LLFileSystem::getFileSize] *)
Definition getFileSize (file_id : LLUUID) (file_type : EType) : OS Z :=
  let filename := filename_of file_id file_type in
  let file_size := 0 in
  p <- LLFile_stat filename ;;
  let (rc, file_stat) := p in
  let file_size := if rc =? 0 then s32 (st_size file_stat) else file_size in
  ret file_size.

(** [LLFileSystem::read].  Beside the result, the embedding returns the
    bytes that [fread] stored at the start of [buffer]. *)
Definition read (this : LLFileSystem) (bytes : Z)
  : OS (BOOL * list byte * LLFileSystem) :=
  let success := FALSE in
  let filename := filename_of (mFileID this) (mFileType this) in
  file <- LLFile_fopen filename "rb" ;;
  match file with
  | Some file =>
      p <- fseek file (mPosition this) SEEK_SET ;;
      let (rc, file) := p in
      if rc =? 0 then
        p <- fread (size_t bytes) file ;;
        let (buffer, file) := p in
        let this := set_mBytesRead (s32 (Z.of_nat (length buffer))) this in
        fclose file ;;
        let this := set_mPosition (s32 (mPosition this + mBytesRead this)) this in
        let success := if mBytesRead this =? 0 then success else TRUE in
        ret (success, buffer, this)
      else ret (success, [], this)
  | None => ret (success, [], this)
  end.

(** [LLFileSystem::getLastBytesRead] *)
Definition getLastBytesRead (this : LLFileSystem) : Z := mBytesRead this.

(** [LLFileSystem::getSize] *)
Definition getSize (this : LLFileSystem) : OS Z :=
  getFileSize (mFileID this) (mFileType this).

(** [LLFileSystem::eof] *)
Definition eof (this : LLFileSystem) : OS BOOL :=
  size <- getSize this ;;
  ret (size <=? mPosition this).

(** [LLFileSystem::write] *)
Definition write (this : LLFileSystem) (buffer : list byte) (bytes : Z)
  : OS (BOOL * LLFileSystem) :=
  let filename := filename_of (mFileID this) (mFileType this) in
  let success := FALSE in
  if mMode this =? APPEND then
    ofs <- LLFile_fopen filename "a+b" ;;
    match ofs with
    | Some ofs =>
        p <- fwrite buffer (size_t bytes) ofs ;;
        let (written, ofs) := p in
        let bytes_written := s32 written in
        let this := set_mPosition (s32 (ftell ofs)) this in
        fclose ofs ;;
        ret (bytes_written =? bytes, this)
    | None => ret (success, this)
    end
  else if mMode this =? READ_WRITE then
    ofs <- LLFile_fopen filename "r+b" ;;
    match ofs with
    | Some ofs =>
        p <- fseek ofs (mPosition this) SEEK_SET ;;
        let (rc, ofs) := p in
        if rc =? 0 then
          p <- fwrite buffer (size_t bytes) ofs ;;
          let (written, ofs) := p in
          let bytes_written := s32 written in
          let this := set_mPosition (s32 (ftell ofs)) this in
          fclose ofs ;;
          ret (bytes_written =? bytes, this)
        else ret (success, this)
    | None =>
        ofs <- LLFile_fopen filename "wb" ;;
        match ofs with
        | Some ofs =>
            p <- fwrite buffer (size_t bytes) ofs ;;
            let (written, ofs) := p in
            let bytes_written := s32 written in
            let this := set_mPosition (s32 (ftell ofs)) this in
            fclose ofs ;;
            ret (bytes_written =? bytes, this)
        | None => ret (success, this)
        end
    end
  else
    ofs <- LLFile_fopen filename "wb" ;;
    match ofs with
    | Some ofs =>
        p <- fwrite buffer (size_t bytes) ofs ;;
        let (written, ofs) := p in
        let bytes_written := s32 written in
        let this := set_mPosition (s32 (ftell ofs)) this in
        fclose ofs ;;
        ret (bytes_written =? bytes, this)
    | None => ret (success, this)
    end.

(** [LLFileSystem::seek] *)
Definition seek (this : LLFileSystem) (offset origin : Z)
  : OS (BOOL * LLFileSystem) :=
  let origin := if -1 =? origin then mPosition this else origin in
  let new_pos := s32 (origin + offset) in
  size <- getSize this ;;
  if size <? new_pos then
    LL_WARNS SeekPastEnd ;;
    ret (FALSE, set_mPosition size this)
  else if new_pos <? 0 then
    LL_WARNS SeekPastBeginning ;;
    ret (FALSE, set_mPosition 0 this)
  else ret (TRUE, set_mPosition new_pos this).

(** [LLFileSystem::tell] *)
Definition tell (this : LLFileSystem) : Z := mPosition this.

(** [LLFileSystem::getMaxSize] *)
Definition getMaxSize : Z := INT_MAX.

(** [LLFileSystem::rename] *)
Definition rename (this : LLFileSystem) (new_id : LLUUID) (new_type : EType)
  : OS (BOOL * LLFileSystem) :=
  renameFile (mFileID this) (mFileType this) new_id new_type ;;
  let this := set_identity new_id new_type this in
  ret (TRUE, this).

(** [LLFileSystem::remove]; the default of [suppress_error] is 0. *)
Definition remove (this : LLFileSystem) : OS (BOOL * LLFileSystem) :=
  removeFile (mFileID this) (mFileType this) 0 ;;
  ret (TRUE, this).

(** *** Auxiliary notions used to state the properties *)

(** The stream [write] ends up writing to: the mode dispatch of [write]
    up to, and without, the [fwrite] call.  [None] when no stream could
    be opened, or when the stream could not be positioned. *)
Definition open_for_write (this : LLFileSystem) : OS (option FILE) :=
  let filename := filename_of (mFileID this) (mFileType this) in
  if mMode this =? APPEND then LLFile_fopen filename "a+b"
  else if mMode this =? READ_WRITE then
    ofs <- LLFile_fopen filename "r+b" ;;
    match ofs with
    | Some ofs =>
        p <- fseek ofs (mPosition this) SEEK_SET ;;
        let (rc, ofs) := p in
        if rc =? 0 then ret (Some ofs) else ret None
    | None => LLFile_fopen filename "wb"
    end
  else LLFile_fopen filename "wb".

(** The number of bytes a [write] call puts into the store, read off the
    volume: by how much the count of the bytes it has taken in grows
    over the call. *)
Definition bytes_written (this : LLFileSystem) (buffer : list byte)
    (bytes : Z) : OS Z :=
  w <- get_world ;;
  write this buffer bytes ;;
  w' <- get_world ;;
  ret (Z.of_nat (stored_total w' - stored_total w)).

(** The path a session is bound to. *)
Definition path_of (this : LLFileSystem) : string :=
  filename_of (mFileID this) (mFileType this).

(** The operations of a session's life after its construction. *)
Inductive Op : Type :=
  | OpRead (bytes : Z)
  | OpWrite (buffer : list byte) (bytes : Z)
  | OpSeek (offset origin : Z)
  | OpTell
  | OpEof.

Definition exec (op : Op) (this : LLFileSystem) : OS LLFileSystem :=
  match op with
  | OpRead bytes => p <- read this bytes ;; ret (snd p)
  | OpWrite buffer bytes => p <- write this buffer bytes ;; ret (snd p)
  | OpSeek offset origin => p <- seek this offset origin ;; ret (snd p)
  | OpTell => let _ := tell this in ret this
  | OpEof => eof this ;; ret this
  end.

(** The volume has room for what an operation may add to a store. *)
Definition room_for (op : Op) (w : World) : Prop :=
  match op with
  | OpWrite buffer bytes => (Z.to_nat (size_t bytes) <= free_space w)%nat
  | _ => True
  end.

(** The states a session and its world go through: construction in some
    world, then any operations, for as long as the store stays within
    [getMaxSize] bytes and the volume has room for what is written. *)
Inductive reachable : World -> LLFileSystem -> Prop :=
  | reach_new (w0 : World) (file_id : LLUUID) (file_type : EType) (mode : Z) :
      store_size w0 (filename_of file_id file_type) <= getMaxSize ->
      reachable (snd (LLFileSystem_new file_id file_type mode w0))
                (fst (LLFileSystem_new file_id file_type mode w0))
  | reach_step (w : World) (this : LLFileSystem) (op : Op) :
      reachable w this ->
      room_for op w ->
      store_size (snd (exec op this w)) (path_of (fst (exec op this w)))
        <= getMaxSize ->
      reachable (snd (exec op this w)) (fst (exec op this w)).

End Accessor.

(** ** A test double for the disk cache

    Concrete identities and a concrete path resolver, used to run the
    accessor on examples. *)

Module Demo.

Inductive AssetType : Type := AT_TEXTURE | AT_SOUND | AT_NOTECARD.

Definition filepath (id : string) (at_ : AssetType) (extra_info : string)
  : string :=
  "cache/sl_cache_" +:+ id +:+ "_"
    +:+ (if String.eqb extra_info "" then "0" else extra_info) +:+ ".asset".

(** Identifiers are given by their canonical string. *)
#[global] Instance cache : DiskCache := {|
  LLUUID := string;
  EType := AssetType;
  toString := fun id => id;
  metaDataToFilepath := filepath
|}.

Definition path_A : string := filepath "A" AT_TEXTURE "".
Definition path_B : string := filepath "B" AT_TEXTURE "".

(** A session on the texture [id], with its cursor at [pos]. *)
Definition session (id : string) (pos mode : Z) : LLFileSystem :=
  mkLLFileSystem (id : @LLUUID cache) (AT_TEXTURE : @EType cache) pos 0 mode.

Definition bytes_of (s : string) : list byte := String.list_byte_of_string s.

(** Streams write through a buffer of 4096 bytes. *)
Definition BUFSIZ : nat := 4096.

Definition volume (m : gmap string Node) (room : nat) : World :=
  mkWorld m room 0 [] [] BUFSIZ 0.

(** One store, under identity ["A"], holding ["foo"]. *)
Definition w_foo : World :=
  volume {[ path_A := RegularFile (bytes_of "foo") ]} 100.

(** Stores ["A"] (holding ["x"]) and ["B"] (holding ["y"]). *)
Definition w_xy : World :=
  volume (<[ path_A := RegularFile (bytes_of "x") ]>
            {[ path_B := RegularFile (bytes_of "y") ]}) 100.

(** An empty store under identity ["A"]. *)
Definition w_empty_store : World :=
  volume {[ path_A := RegularFile [] ]} 100.

(** A directory sits where the store of ["A"] would be. *)
Definition w_dir : World :=
  volume {[ path_A := Directory 4096 ]} 100.

(** Nothing on the volume. *)
Definition w_blank : World := volume ∅ 100.

(** The volume of [w_foo] with room for two more bytes only. *)
Definition w_foo_tight : World := set_free_space 2 w_foo.

End Demo.

(** * Properties *)

Section Properties.

Context {dc : DiskCache}.

(** ** Machine integers *)

Lemma s32_id (z : Z) : is_S32 z -> s32 z = z.
Proof.
  unfold is_S32, INT_MIN, INT_MAX, s32. intros Hz.
  rewrite Z.mod_small; lia.
Qed.

Lemma size_t_id (z : Z) : 0 <= z <= INT_MAX -> size_t z = z.
Proof.
  unfold size_t, INT_MAX. intros Hz. rewrite Z.mod_small; lia.
Qed.

Lemma store_size_nonneg (w : World) (p : string) : 0 <= store_size w p.
Proof. unfold store_size. repeat case_match; lia. Qed.

Lemma store_size_regular (w : World) (p : string) (c : list byte) :
  nodes w !! p = Some (RegularFile c) -> store_size w p = Z.of_nat (length c).
Proof. unfold store_size. by intros ->. Qed.

(** ** Running the monad *)

Ltac os_unfold :=
  unfold LL_WARNS, fail, fclose, bind, ret, modify, get_world in *.

(** The same, with [fclose] kept as it is. *)
Ltac os_run :=
  unfold LL_WARNS, fail, bind, ret, modify, get_world in *.

(** ** [stat], existence and size *)

Lemma LLFile_stat_regular (w : World) (filename : string) (c : list byte) :
  nodes w !! filename = Some (RegularFile c) ->
  LLFile_stat filename w
  = ((0, mk_llstat (Z.lor S_IFREG 0x1A4) (Z.of_nat (length c))), w).
Proof.
  intros Hn. unfold LLFile_stat. os_unfold. cbn. rewrite Hn.
  by rewrite (store_size_regular _ _ _ Hn).
Qed.

Lemma LLFile_stat_directory (w : World) (filename : string) (n : nat) :
  nodes w !! filename = Some (Directory n) ->
  LLFile_stat filename w
  = ((0, mk_llstat (Z.lor S_IFDIR 0x1ED) (Z.of_nat n)), w).
Proof.
  intros Hn. unfold LLFile_stat. os_unfold. cbn. rewrite Hn.
  unfold store_size. by rewrite Hn.
Qed.

Lemma LLFile_stat_absent (w : World) (filename : string) :
  nodes w !! filename = None ->
  LLFile_stat filename w = ((-1, mk_llstat 0 0), set_errno ENOENT w).
Proof. intros Hn. unfold LLFile_stat. os_unfold. cbn. by rewrite Hn. Qed.

Lemma getFileSize_value (w : World) (file_id : LLUUID) (file_type : EType) :
  fst (getFileSize file_id file_type w)
  = s32 (store_size w (filename_of file_id file_type)).
Proof.
  unfold getFileSize. os_unfold.
  destruct (nodes w !! filename_of file_id file_type) as [[c|n]|] eqn:Hn.
  - rewrite (LLFile_stat_regular _ _ _ Hn). cbn.
    by rewrite (store_size_regular _ _ _ Hn).
  - rewrite (LLFile_stat_directory _ _ _ Hn). cbn.
    unfold store_size. by rewrite Hn.
  - rewrite (LLFile_stat_absent _ _ Hn). cbn.
    unfold store_size. by rewrite Hn.
Qed.

Lemma getFileSize_world (w : World) (file_id : LLUUID) (file_type : EType) :
  let w' := snd (getFileSize file_id file_type w) in
  nodes w' = nodes w /\ free_space w' = free_space w
  /\ llwarns w' = llwarns w /\ touched w' = touched w.
Proof.
  unfold getFileSize. os_unfold.
  destruct (nodes w !! filename_of file_id file_type) as [[c|n]|] eqn:Hn.
  - by rewrite (LLFile_stat_regular _ _ _ Hn).
  - by rewrite (LLFile_stat_directory _ _ _ Hn).
  - by rewrite (LLFile_stat_absent _ _ Hn).
Qed.

(** C8.  [getExists] answers true exactly when the resolved path names a
    regular file that holds at least one byte.  A store of length zero is
    reported as not existing, while [stat] succeeds on it and the size
    query returns 0. *)
Theorem getExists_iff_nonempty_regular_file
    (w : World) (file_id : LLUUID) (file_type : EType) :
  let filename := filename_of file_id file_type in
  (fst (getExists file_id file_type w) = true
   <-> exists c, nodes w !! filename = Some (RegularFile c)
                 /\ (0 < length c)%nat)
  /\ (nodes w !! filename = Some (RegularFile []) ->
      fst (getExists file_id file_type w) = false
      /\ fst (fst (LLFile_stat filename w)) = 0
      /\ fst (getFileSize file_id file_type w) = 0).
Proof.
  intros filename. split.
  - unfold getExists. os_unfold. fold filename.
    destruct (nodes w !! filename) as [[c|n]|] eqn:Hn.
    + rewrite (LLFile_stat_regular _ _ _ Hn). cbn.
      change (S_ISREG (Z.lor S_IFREG 420)) with true. cbn. split.
      * intros Hpos. exists c. split; [done|].
        apply Z.ltb_lt in Hpos. lia.
      * intros (c' & Hc' & Hlen). simplify_eq. apply Z.ltb_lt. lia.
    + rewrite (LLFile_stat_directory _ _ _ Hn). cbn.
      change (S_ISREG (Z.lor S_IFDIR 493)) with false. cbn. split.
      * done.
      * by intros (c' & Hc' & _).
    + rewrite (LLFile_stat_absent _ _ Hn). cbn. split.
      * done.
      * by intros (c' & Hc' & _).
  - intros Hn. repeat split.
    + unfold getExists. os_unfold. fold filename.
      by rewrite (LLFile_stat_regular _ _ _ Hn).
    + by rewrite (LLFile_stat_regular _ _ _ Hn).
    + rewrite getFileSize_value. fold filename.
      by rewrite (store_size_regular _ _ _ Hn).
Qed.

(** ** Remove and rename *)

Lemma LLFile_remove_result (w : World) (filename : string) (supress_error : Z) :
  forall c, nodes (snd (LLFile_remove filename supress_error w)) !! filename
            <> Some (RegularFile c).
Proof.
  intros c. unfold LLFile_remove. os_unfold.
  destruct (nodes w !! filename) as [[c'|n]|] eqn:Hn.
  - cbn. by rewrite lookup_delete_eq.
  - destruct (ENOTEMPTY =? supress_error); cbn; by rewrite Hn.
  - destruct (ENOENT =? supress_error); cbn; by rewrite Hn.
Qed.

Lemma LLFile_remove_absent_quiet (w : World) (filename : string) :
  nodes w !! filename = None ->
  LLFile_remove filename ENOENT w = (-1, set_errno ENOENT w).
Proof. intros Hn. unfold LLFile_remove. os_unfold. cbn. by rewrite Hn. Qed.

(** C1.  [removeFile] and [renameFile] report success whatever the
    operating system answers.  [renameFile] first removes what is stored at
    the destination, passing [ENOENT] as the error to keep quiet about, and
    then renames the old path to the new one; a failed rename only adds a
    line to the warning log.  After the removal no regular file is left at
    the destination, and when the destination was absent the removal logs
    nothing. *)
Theorem removeFile_renameFile_always_succeed
    (w : World) (old_file_id : LLUUID) (old_file_type : EType)
    (new_file_id : LLUUID) (new_file_type : EType) (suppress_error : Z) :
  let old_filename := filename_of old_file_id old_file_type in
  let new_filename := filename_of new_file_id new_file_type in
  let w1 := snd (removeFile new_file_id new_file_type ENOENT w) in
  let r := LLFile_rename old_filename new_filename w1 in
  removeFile new_file_id new_file_type suppress_error w
  = (true, snd (LLFile_remove new_filename suppress_error w))
  /\ renameFile old_file_id old_file_type new_file_id new_file_type w
     = (TRUE,
        if fst r =? 0 then snd r
        else add_llwarn (FailedToRename (toString old_file_id)
                           (toString new_file_id) (errno (snd r))) (snd r))
  /\ (forall c, nodes w1 !! new_filename <> Some (RegularFile c))
  /\ (nodes w !! new_filename = None -> llwarns w1 = llwarns w).
Proof.
  intros old_filename new_filename w1 r. repeat split.
  - unfold removeFile. os_unfold. fold new_filename.
    by destruct (LLFile_remove new_filename suppress_error w).
  - unfold renameFile. os_unfold. fold old_filename. subst r w1.
    unfold removeFile. os_unfold.
    change (metaDataToFilepath (toString new_file_id) new_file_type "")
      with new_filename.
    fold new_filename.
    destruct (LLFile_remove new_filename ENOENT w) as [rc0 w1].
    cbn [fst snd].
    destruct (LLFile_rename old_filename new_filename w1) as [rc w2].
    cbn [fst snd negb]. by destruct (rc =? 0).
  - intros c. subst w1. unfold removeFile. os_unfold. fold new_filename.
    pose proof (LLFile_remove_result w new_filename ENOENT c) as Hr.
    by destruct (LLFile_remove new_filename ENOENT w).
  - intros Hn. subst w1. unfold removeFile. os_unfold. fold new_filename.
    by rewrite (LLFile_remove_absent_quiet _ _ Hn).
Qed.

(** C10.  The instance method [rename] rebinds the session to the new
    identity and reports success in every world, whether or not the store
    was moved: afterwards the session resolves to the new identity's path,
    and its size query is the size query of the new identity. *)
Theorem rename_rebinds_session
    (w : World) (this : LLFileSystem) (new_id : LLUUID) (new_type : EType) :
  let r := rename this new_id new_type w in
  fst (fst r) = TRUE
  /\ mFileID (snd (fst r)) = new_id
  /\ mFileType (snd (fst r)) = new_type
  /\ path_of (snd (fst r)) = filename_of new_id new_type
  /\ snd r = snd (renameFile (mFileID this) (mFileType this) new_id new_type w)
  /\ (forall w', getSize (snd (fst r)) w' = getFileSize new_id new_type w').
Proof.
  cbn. unfold rename. os_unfold.
  destruct (renameFile (mFileID this) (mFileType this) new_id new_type w)
    as [b w']. cbn. by repeat split.
Qed.

(** ** Read *)

Lemma fopen_read_regular (w : World) (filename : string) (c : list byte) :
  nodes w !! filename = Some (RegularFile c) ->
  LLFile_fopen filename "rb" w = (Some (mkFILE filename 0 false []), w).
Proof.
  intros Hn. unfold LLFile_fopen, fopen. os_unfold. cbn. by rewrite Hn.
Qed.

Lemma fopen_read_some (w : World) (filename : string) (file : FILE) :
  fst (LLFile_fopen filename "rb" w) = Some file ->
  exists c, nodes w !! filename = Some (RegularFile c).
Proof.
  unfold LLFile_fopen, fopen. os_unfold. cbn.
  destruct (nodes w !! filename) as [[c|n]|]; cbn; [eauto|done|done].
Qed.

(** C9.  When the store cannot be opened, [read] reports failure, hands
    back no bytes and leaves the session, and so its cursor, as it was. *)
Theorem read_unopenable_store
    (w : World) (this : LLFileSystem) (bytes : Z) :
  fst (LLFile_fopen (path_of this) "rb" w) = None ->
  fst (read this bytes w) = (FALSE, [], this)
  /\ tell (snd (fst (read this bytes w))) = tell this.
Proof.
  intros Hopen. unfold read. os_unfold. unfold path_of in Hopen.
  destruct (LLFile_fopen (filename_of (mFileID this) (mFileType this)) "rb" w)
    as [[file|] w']; cbn in *; [done|by split].
Qed.

Lemma fseek_set (file : FILE) (offset : Z) (w : World) :
  fseek file offset SEEK_SET w
  = if offset <? 0 then ((-1, file), set_errno EINVAL w)
    else ((0, mkFILE (f_path file) offset (f_append file) (f_pending file)), w).
Proof.
  unfold fseek. os_unfold. change (SEEK_SET =? SEEK_SET) with true.
  cbv beta iota zeta. rewrite Z.add_0_l. by destruct (offset <? 0).
Qed.

(** What [read] does on a store that is a regular file. *)
Lemma read_regular (w : World) (this : LLFileSystem) (bytes : Z) (c : list byte) :
  nodes w !! path_of this = Some (RegularFile c) ->
  read this bytes w
  = if mPosition this <? 0 then ((FALSE, [], this), set_errno EINVAL w)
    else
      let data := take (Z.to_nat (size_t bytes))
                    (drop (Z.to_nat (mPosition this)) c) in
      let n := s32 (Z.of_nat (length data)) in
      ((negb (n =? 0), data,
        set_mPosition (s32 (mPosition this + n)) (set_mBytesRead n this)), w).
Proof.
  intros Hn. unfold read. os_unfold. fold (path_of this).
  rewrite (fopen_read_regular _ _ _ Hn). cbv beta iota zeta.
  rewrite fseek_set. destruct (mPosition this <? 0); [done|].
  cbv beta iota zeta. change (0 =? 0) with true. cbv beta iota zeta.
  unfold fread. os_unfold. cbn [f_path f_offset f_append f_pending].
  unfold content_at. rewrite Hn.
  cbn [mBytesRead mPosition mFileID mFileType mMode set_mBytesRead set_mPosition].
  by destruct (s32 _ =? 0).
Qed.

(** C3.  On a store that can be opened, [read] succeeds exactly when it
    obtained at least one byte, however many were asked for; on success
    the cursor has advanced by the number of bytes obtained and
    [getLastBytesRead] reports that number.  The bytes obtained are the
    stored ones from the cursor on, at most as many as requested.  The
    cursor is an [S32] and the store is within [getMaxSize] bytes. *)
Theorem read_succeeds_iff_bytes_obtained
    (w : World) (this : LLFileSystem) (bytes : Z) (file : FILE) :
  fst (LLFile_fopen (path_of this) "rb" w) = Some file ->
  is_S32 (mPosition this) ->
  store_size w (path_of this) <= getMaxSize ->
  let success := fst (fst (fst (read this bytes w))) in
  let obtained := snd (fst (fst (read this bytes w))) in
  let this' := snd (fst (read this bytes w)) in
  (success = TRUE <-> (1 <= length obtained)%nat)
  /\ (success = TRUE ->
      tell this' = tell this + Z.of_nat (length obtained)
      /\ getLastBytesRead this' = Z.of_nat (length obtained))
  /\ (0 <= mPosition this ->
      obtained = take (Z.to_nat (size_t bytes))
                   (drop (Z.to_nat (mPosition this))
                      (content_at w (path_of this)))).
Proof.
  intros Hopen Hpos Hfits.
  destruct (fopen_read_some _ _ _ Hopen) as [c Hn].
  rewrite (store_size_regular _ _ _ Hn) in Hfits. unfold getMaxSize in Hfits.
  rewrite (read_regular _ _ _ _ Hn). unfold content_at. rewrite Hn.
  destruct (mPosition this <? 0) eqn:Hneg; cbn [fst snd length].
  - apply Z.ltb_lt in Hneg. repeat split; try done; try lia.
  - apply Z.ltb_ge in Hneg.
    set (data := take (Z.to_nat (size_t bytes))
                   (drop (Z.to_nat (mPosition this)) c)).
    assert (Hlen : (length data <= length c - Z.to_nat (mPosition this))%nat).
    { subst data. rewrite length_take, length_drop. lia. }
    assert (Hs : s32 (Z.of_nat (length data)) = Z.of_nat (length data)).
    { apply s32_id. unfold is_S32, INT_MIN, INT_MAX in *. lia. }
    cbv zeta. rewrite Hs. unfold tell, getLastBytesRead.
    cbn [mPosition mBytesRead set_mPosition set_mBytesRead].
    repeat split.
    + intros Hb. apply negb_true_iff, Z.eqb_neq in Hb. lia.
    + intros Hb. apply negb_true_iff, Z.eqb_neq. lia.
    + apply s32_id. unfold is_S32, INT_MIN, INT_MAX in *. lia.
Qed.

(** ** Seek *)

(** C6.  [seek] with origin 0 (absolute) or -1 (relative to the cursor)
    computes the target as the [S32] sum of base and offset, which is the
    plain sum whenever that is representable.  A target beyond the store
    size sets the cursor to the size and fails; a negative target sets the
    cursor to 0 and fails; any other target becomes the cursor and the call
    succeeds. *)
Theorem seek_clamps_cursor
    (w : World) (this : LLFileSystem) (offset origin : Z) :
  origin = 0 \/ origin = -1 ->
  0 <= fst (getSize this w) ->
  let base := if origin =? -1 then mPosition this else 0 in
  let target := s32 (base + offset) in
  let size := fst (getSize this w) in
  let r := fst (seek this offset origin w) in
  (is_S32 (base + offset) -> target = base + offset)
  /\ (size < target -> r = (FALSE, set_mPosition size this))
  /\ (target < 0 -> r = (FALSE, set_mPosition 0 this))
  /\ (0 <= target <= size -> r = (TRUE, set_mPosition target this)).
Proof.
  intros Horigin Hsize base target size r.
  assert (Hr : r = if size <? target then (FALSE, set_mPosition size this)
                   else if target <? 0 then (FALSE, set_mPosition 0 this)
                   else (TRUE, set_mPosition target this)).
  { subst r. unfold seek. os_unfold.
    replace (if -1 =? origin then mPosition this else origin) with base.
    2:{ subst base. by destruct Horigin as [-> | ->]. }
    fold target. subst size.
    destruct (getSize this w) as [sz w']. cbn [fst].
    destruct (sz <? target); [done|]. by destruct (target <? 0). }
  rewrite Hr. repeat split.
  - apply s32_id.
  - intros H. apply Z.ltb_lt in H. by rewrite H.
  - intros H. assert ((size <? target) = false) as -> by (apply Z.ltb_ge; lia).
    apply Z.ltb_lt in H. by rewrite H.
  - intros [H1 H2].
    assert ((size <? target) = false) as -> by (apply Z.ltb_ge; lia).
    by assert ((target <? 0) = false) as -> by (apply Z.ltb_ge; lia).
Qed.

(** ** Writing into a file *)

Lemma length_spliced (old : list byte) (start : nat) (data : list byte) :
  length (spliced old start data)
  = Nat.max (length old) (start + length data).
Proof.
  unfold spliced.
  rewrite !length_app, length_take, length_replicate, length_drop. lia.
Qed.




Lemma spliced_at_end (old data : list byte) :
  spliced old (length old) data = old ++ data.
Proof.
  unfold spliced. rewrite firstn_all, Nat.sub_diag.
  rewrite drop_ge by lia. cbn [replicate app]. by rewrite app_nil_r.
Qed.

Lemma spliced_spliced (old : list byte) (start : nat) (d1 d2 : list byte) :
  spliced (spliced old start d1) (start + length d1) d2
  = spliced old start (d1 ++ d2).
Proof.
  unfold spliced at 1. rewrite length_spliced.
  replace (start + length d1 - Nat.max (length old) (start + length d1))%nat
    with 0%nat by lia.
  cbn [replicate app]. unfold spliced.
  set (P := take start old ++ replicate (start - length old) x00).
  assert (Hlen : length P = start).
  { subst P. rewrite length_app, length_take, length_replicate. lia. }
  replace (take start old ++ replicate (start - length old) x00
             ++ d1 ++ drop (start + length d1) old)
    with ((P ++ d1) ++ drop (start + length d1) old)
    by (subst P; by rewrite <- !app_assoc).
  rewrite take_app_length' by (rewrite length_app; lia).
  rewrite drop_app_ge by (rewrite length_app; lia).
  rewrite length_app, Hlen, drop_drop, length_app.
  replace (take start old ++ replicate (start - length old) x00
             ++ (d1 ++ d2) ++ drop (start + (length d1 + length d2)) old)
    with (P ++ d1 ++ d2 ++ drop (start + (length d1 + length d2)) old)
    by (subst P; by rewrite <- !app_assoc).
  rewrite <- !app_assoc. do 3 f_equal. f_equal. lia.
Qed.

Lemma take_length_take (l : list byte) (m : nat) :
  take (length (take m l)) l = take m l.
Proof.
  rewrite length_take. destruct (decide (m <= length l)%nat).
  - by rewrite Nat.min_l.
  - rewrite Nat.min_r by lia. by rewrite !take_ge by lia.
Qed.

(** ** The stream library at work on a regular file *)

Lemma store_bytes_regular (w : World) (path : string) (old data : list byte)
    (start : nat) :
  nodes w !! path = Some (RegularFile old) ->
  let stored := take (length old - start + free_space w) data in
  store_bytes path start data w
  = if (length stored =? 0)%nat then (0%nat, w)
    else (length stored,
          add_stored (length stored)
            (set_free_space
               (free_space w - (length stored - (length old - start)))
               (set_nodes
                  (<[path := RegularFile (spliced old start stored)]> (nodes w))
                  w))).
Proof.
  intros Hn stored. unfold store_bytes. os_unfold.
  unfold content_at. rewrite Hn. fold stored.
  by destruct (length stored =? 0)%nat.
Qed.

Lemma direct_count_le (b n : nat) : (direct_count b n <= n)%nat.
Proof. unfold direct_count. destruct (b =? 0)%nat; lia. Qed.

Lemma accepted_count_le (b room n : nat) : (accepted_count b room n <= n)%nat.
Proof.
  unfold accepted_count. pose proof (direct_count_le b n).
  destruct (room <? direct_count b n)%nat eqn:Hlt; [|done].
  apply Nat.ltb_lt in Hlt. lia.
Qed.


Lemma accepted_count_room (b room n : nat) :
  (n <= room)%nat -> accepted_count b room n = n.
Proof.
  intros Hle. unfold accepted_count. pose proof (direct_count_le b n).
  destruct (room <? direct_count b n)%nat eqn:Hlt; [|done].
  apply Nat.ltb_lt in Hlt. lia.
Qed.

(** A stream without unstored bytes is closed without effect. *)
Lemma fclose_clean (w : World) (file : FILE) :
  f_pending file = [] -> fclose file w = (0, w).
Proof. unfold fclose. by intros ->. Qed.

Lemma fclose_pending (w : World) (file : FILE) :
  f_pending file <> [] ->
  fclose file w
  = let (start, w1) := write_offset file w in
    let (k, w2) := store_bytes (f_path file) start (f_pending file) w1 in
    if (k <? length (f_pending file))%nat then (EOF, set_errno ENOSPC w2)
    else (0, w2).
Proof.
  intros Hp. unfold fclose. os_run.
  destruct (f_pending file) as [|b0 rest] eqn:He; [done|].
  destruct (write_offset file w) as [start w1].
  destruct (store_bytes (f_path file) start (b0 :: rest) w1) as [k w2].
  by destruct (k <? length (b0 :: rest))%nat.
Qed.

(** What the world has become when, as in [write], a stream on a
    regular file is written once and closed: the volume took what it had
    room for, at the place the stream writes to, while [fwrite] reported
    and [ftell] counted what the stream accepted. *)
Lemma stream_write (w : World) (file : FILE) (buffer old : list byte)
    (nmemb : Z) :
  nodes w !! f_path file = Some (RegularFile old) ->
  f_pending file = [] ->
  let start := if f_append file then length old else Z.to_nat (f_offset file) in
  let want := take (Z.to_nat nmemb) buffer in
  let room := (length old - start + free_space w)%nat in
  let data := take room want in
  let a := accepted_count (bufsiz w) room (length want) in
  let r := fwrite buffer nmemb file w in
  let w3 := snd (fclose (snd (fst r)) (snd r)) in
  fst (fst r) = Z.of_nat a
  /\ ftell (snd (fst r))
     = (if (length want =? 0)%nat then f_offset file else Z.of_nat (start + a))
  /\ nodes w3
     = (if (length data =? 0)%nat then nodes w
        else <[f_path file := RegularFile (spliced old start data)]> (nodes w))
  /\ stored_total w3 = (stored_total w + length data)%nat
  /\ free_space w3 = (free_space w - (length data - (length old - start)))%nat
  /\ touched w3 = touched w /\ llwarns w3 = llwarns w /\ bufsiz w3 = bufsiz w.
Proof.
  intros Hn Hpend start want room data a r w3.
  assert (Hwo : forall (f : FILE) (w' : World) (c : list byte) (s : nat),
            nodes w' !! f_path f = Some (RegularFile c) ->
            (if f_append f then length c else Z.to_nat (f_offset f)) = s ->
            write_offset f w' = (s, w')).
  { intros f w' c s Hc <-. unfold write_offset. os_run.
    unfold content_at. by rewrite Hc. }
  subst r w3. unfold fwrite. os_run. fold want.
  destruct (length want =? 0)%nat eqn:Hw0.
  { apply Nat.eqb_eq in Hw0.
    assert (Hd : length data = 0%nat) by (subst data; rewrite length_take; lia).
    assert (Ha : a = 0%nat).
    { pose proof (accepted_count_le (bufsiz w) room (length want)).
      subst a. lia. }
    cbn [fst snd]. rewrite (fclose_clean _ _ Hpend). cbn [snd].
    rewrite Hd, Ha. unfold ftell. rewrite Hpend. cbn [length Nat.eqb].
    repeat split; try done; lia. }
  apply Nat.eqb_neq in Hw0.
  rewrite (Hwo file w old start Hn eq_refl).
  set (direct := direct_count (bufsiz w) (length want)).
  pose proof (direct_count_le (bufsiz w) (length want)) as Hdle. fold direct in Hdle.
  rewrite (store_bytes_regular _ _ old) by done. cbv zeta. fold room.
  assert (Hs1 : take room (take direct want) = take (Nat.min room direct) want).
  { by rewrite take_take. }
  rewrite Hs1.
  assert (Hk1 : length (take (Nat.min room direct) want) = Nat.min room direct).
  { rewrite length_take. lia. }
  rewrite Hk1. subst a. unfold accepted_count. fold direct.
  destruct (room <? direct)%nat eqn:Hshort.
  - (* the volume takes fewer than the whole blocks *)
    apply Nat.ltb_lt in Hshort.
    replace (Nat.min room direct) with room by lia.
    assert (Hd : length data = room) by (subst data; rewrite length_take; lia).
    fold data. rewrite Hd.
    destruct (room =? 0)%nat eqn:Hr0.
    + apply Nat.eqb_eq in Hr0.
      assert ((0 <? direct)%nat = true) as -> by (apply Nat.ltb_lt; lia).
      cbn [fst snd]. rewrite fclose_clean by done.
      unfold ftell.
      cbn [fst snd f_offset f_pending length nodes set_errno free_space
           stored_total touched llwarns bufsiz].
      rewrite Hr0. repeat split; try done; lia.
    + assert ((room <? direct)%nat = true) as -> by (by apply Nat.ltb_lt).
      cbn [fst snd]. rewrite fclose_clean by done.
      unfold ftell.
      cbn [fst snd f_offset f_pending length nodes set_errno set_nodes
           set_free_space add_stored free_space stored_total touched llwarns
           bufsiz].
      repeat split; try done; lia.
  - (* the whole blocks are stored, the rest waits in the buffer *)
    apply Nat.ltb_ge in Hshort.
    replace (Nat.min room direct) with direct by lia.
    set (d1 := take direct want).
    assert (Hd1 : length d1 = direct) by (subst d1; rewrite length_take; lia).
    set (d2 := take (room - direct) (drop direct want)).
    assert (Hdata : data = d1 ++ d2).
    { subst data d1 d2. replace room with (direct + (room - direct))%nat at 1 by lia.
      by rewrite take_take_drop. }
    assert ((direct <? direct)%nat = false) as Hirr by (apply Nat.ltb_ge; lia).
    destruct (direct =? 0)%nat eqn:Hdz.
    + (* everything waits in the buffer *)
      apply Nat.eqb_eq in Hdz. rewrite Hdz. cbn [Nat.ltb Nat.leb].
      cbn [fst snd]. rewrite drop_0.
      rewrite fclose_pending
        by (cbn [f_pending]; intros He; by rewrite He in Hw0).
      cbn [f_pending f_path f_append f_offset].
      rewrite (Hwo (mkFILE (f_path file) (Z.of_nat (start + 0)) (f_append file)
                      want) w old start Hn).
      2:{ cbn [f_append f_offset]. subst start.
          destruct (f_append file); [done|lia]. }
      rewrite (store_bytes_regular _ _ old) by done. cbv zeta. fold room. fold data.
      unfold ftell. cbn [f_offset f_pending].
      rewrite <- (Nat.add_0_r start) at 1.
      destruct (length data =? 0)%nat eqn:Hdl.
      * apply Nat.eqb_eq in Hdl. rewrite Hdl.
        assert ((0 <? length want)%nat = true) as -> by (apply Nat.ltb_lt; lia).
        cbn [fst snd nodes set_errno free_space stored_total touched llwarns
             bufsiz].
        repeat split; try done; lia.
      * destruct (length data <? length want)%nat;
          cbn [fst snd nodes set_errno set_nodes set_free_space add_stored
               free_space stored_total touched llwarns bufsiz];
          repeat split; try done; lia.
    + apply Nat.eqb_neq in Hdz. rewrite Hirr. cbn [fst snd].
      fold d1.
      set (w2 := add_stored direct _).
      assert (Hn2 : nodes w2 !! f_path file
                    = Some (RegularFile (spliced old start d1))).
      { subst w2. cbn [nodes add_stored set_free_space set_nodes].
        apply lookup_insert_eq. }
      destruct (decide (drop direct want = [])) as [Hrest|Hrest].
      * (* nothing waits *)
        assert (Hd2 : d2 = []) by (subst d2; by rewrite Hrest, take_nil).
        rewrite Hd2, app_nil_r in Hdata.
        assert (Hall : direct = length want).
        { apply (f_equal length) in Hrest. rewrite length_drop in Hrest.
          cbn in Hrest. lia. }
        rewrite fclose_clean by done. rewrite Hrest.
        unfold ftell. cbn [fst snd f_offset f_pending length].
        subst w2.
        cbn [nodes set_nodes set_free_space add_stored free_space stored_total
             touched llwarns bufsiz].
        rewrite Hdata, Hd1.
        assert ((direct =? 0)%nat = false) as -> by (by apply Nat.eqb_neq).
        repeat split; try done; lia.
      * rewrite fclose_pending by done.
        cbn [f_pending f_path f_append f_offset].
        rewrite (Hwo (mkFILE (f_path file) (Z.of_nat (start + direct))
                        (f_append file) (drop direct want))
                   w2 (spliced old start d1) (start + direct)%nat Hn2).
        2:{ cbn [f_append f_offset]. rewrite length_spliced, Hd1.
            destruct (f_append file) eqn:Happ; [subst start; lia|lia]. }
        rewrite (store_bytes_regular _ _ (spliced old start d1)) by done.
        cbv zeta.
        assert (Hroom2 : (length (spliced old start d1) - (start + direct)
                          + free_space w2)%nat = (room - direct)%nat).
        { rewrite length_spliced, Hd1. subst w2 room.
          cbn [free_space add_stored set_free_space set_nodes]. lia. }
        rewrite Hroom2. fold d2.
        assert (Hlen2 : (length d2 <= length (drop direct want))%nat).
        { subst d2. rewrite length_take. lia. }
        assert (Hlw : length want = (direct + length (drop direct want))%nat).
        { rewrite length_drop. lia. }
        unfold ftell. cbn [f_offset f_pending].
        assert (Hlend : length data = (direct + length d2)%nat).
        { by rewrite Hdata, length_app, Hd1. }
        rewrite Hlend.
        assert ((direct + length d2 =? 0)%nat = false) as ->
          by (apply Nat.eqb_neq; lia).
        destruct (length d2 =? 0)%nat eqn:Hz2.
        -- apply Nat.eqb_eq in Hz2.
           assert (Hd2 : d2 = []) by (by apply length_zero_iff_nil).
           assert ((0 <? length (drop direct want))%nat = true) as ->.
           { apply Nat.ltb_lt. destruct (drop direct want); [done|cbn; lia]. }
           rewrite Hdata, Hd2, app_nil_r. subst w2.
           cbn [fst snd nodes set_errno set_nodes set_free_space add_stored
                free_space stored_total touched llwarns bufsiz length].
           repeat split; try done; lia.
        -- assert (Hnodes : <[f_path file :=
                     RegularFile (spliced (spliced old start d1)
                                    (start + direct) d2)]> (nodes w2)
                   = <[f_path file := RegularFile (spliced old start data)]>
                       (nodes w)).
           { subst w2. cbn [nodes add_stored set_free_space set_nodes].
             rewrite insert_insert_eq. rewrite <- Hd1 at 1.
             by rewrite spliced_spliced, Hdata. }
           assert (Hfree : (free_space w2
                     - (length d2 - (length (spliced old start d1)
                                      - (start + direct))))%nat
                   = (free_space w
                      - (direct + length d2 - (length old - start)))%nat).
           { rewrite length_spliced, Hd1. subst w2 room.
             cbn [free_space add_stored set_free_space set_nodes]. lia. }
           destruct (length d2 <? length (drop direct want))%nat;
             cbn [fst snd nodes set_errno set_nodes set_free_space add_stored
                  free_space stored_total touched llwarns bufsiz];
             rewrite ?Hnodes, ?Hfree; subst w2;
             cbn [fst snd nodes set_errno set_nodes set_free_space add_stored
                  free_space stored_total touched llwarns bufsiz];
             repeat split; try done; lia.
Qed.

(** ** Write *)

(** [write] is its mode dispatch followed by one [fwrite], [ftell],
    [fclose] on the stream the dispatch yields. *)
Lemma write_unfold (w : World) (this : LLFileSystem) (buffer : list byte)
    (bytes : Z) :
  write this buffer bytes w
  = match open_for_write this w with
    | (Some ofs, w1) =>
        match fwrite buffer (size_t bytes) ofs w1 with
        | ((written, ofs'), w2) =>
            ((s32 written =? bytes, set_mPosition (s32 (ftell ofs')) this),
             snd (fclose ofs' w2))
        end
    | (None, w1) => ((FALSE, this), w1)
    end.
Proof.
  unfold write, open_for_write. os_run.
  destruct (mMode this =? APPEND).
  { destruct (LLFile_fopen _ "a+b" w) as [[ofs|] w1]; [|done].
    destruct (fwrite buffer (size_t bytes) ofs w1) as [[written ofs'] w2].
    by destruct (fclose ofs' w2). }
  destruct (mMode this =? READ_WRITE).
  { destruct (LLFile_fopen _ "r+b" w) as [[ofs|] w1].
    - destruct (fseek ofs (mPosition this) SEEK_SET w1) as [[rc ofs1] w2].
      destruct (rc =? 0); [|done].
      destruct (fwrite buffer (size_t bytes) ofs1 w2) as [[written ofs'] w3].
      by destruct (fclose ofs' w3).
    - destruct (LLFile_fopen _ "wb" w1) as [[ofs|] w2]; [|done].
      destruct (fwrite buffer (size_t bytes) ofs w2) as [[written ofs'] w3].
      by destruct (fclose ofs' w3). }
  destruct (LLFile_fopen _ "wb" w) as [[ofs|] w1]; [|done].
  destruct (fwrite buffer (size_t bytes) ofs w1) as [[written ofs'] w2].
  by destruct (fclose ofs' w2).
Qed.

Lemma write_keeps_identity (w : World) (this : LLFileSystem)
    (buffer : list byte) (bytes : Z) :
  let this' := snd (fst (write this buffer bytes w)) in
  mFileID this' = mFileID this /\ mFileType this' = mFileType this
  /\ mMode this' = mMode this /\ mBytesRead this' = mBytesRead this.
Proof.
  cbv zeta. rewrite write_unfold.
  destruct (open_for_write this w) as [[ofs|] w1]; [|done].
  by destruct (fwrite _ _ _ w1) as [[written ofs'] w2].
Qed.


(** The three ways of opening a stream, by what the path names. *)
Lemma fopen_update_regular (w : World) (filename : string) (c : list byte) :
  nodes w !! filename = Some (RegularFile c) ->
  LLFile_fopen filename "r+b" w = (Some (mkFILE filename 0 false []), w).
Proof.
  intros Hn. unfold LLFile_fopen, fopen. os_unfold. cbn. by rewrite Hn.
Qed.

Lemma fopen_update_absent (w : World) (filename : string) :
  nodes w !! filename = None ->
  LLFile_fopen filename "r+b" w = (None, set_errno ENOENT w).
Proof.
  intros Hn. unfold LLFile_fopen, fopen. os_unfold. cbn. by rewrite Hn.
Qed.

Lemma fopen_append_regular (w : World) (filename : string) (c : list byte) :
  nodes w !! filename = Some (RegularFile c) ->
  LLFile_fopen filename "a+b" w = (Some (mkFILE filename 0 true []), w).
Proof.
  intros Hn. unfold LLFile_fopen, fopen. os_unfold. cbn. by rewrite Hn.
Qed.

Lemma fopen_append_absent (w : World) (filename : string) :
  nodes w !! filename = None ->
  LLFile_fopen filename "a+b" w
  = (Some (mkFILE filename 0 true []),
     set_free_space (free_space w + 0)
       (set_nodes (<[filename := RegularFile []]> (nodes w)) w)).
Proof.
  intros Hn. unfold LLFile_fopen, fopen, truncate_node. os_unfold. cbn.
  rewrite Hn. unfold content_at. by rewrite Hn.
Qed.

Lemma fopen_truncate (w : World) (filename : string) :
  (forall n, nodes w !! filename <> Some (Directory n)) ->
  LLFile_fopen filename "wb" w
  = (Some (mkFILE filename 0 false []),
     set_free_space (free_space w + length (content_at w filename))
       (set_nodes (<[filename := RegularFile []]> (nodes w)) w)).
Proof.
  intros Hn. unfold LLFile_fopen, fopen, truncate_node. os_unfold. cbn.
  destruct (nodes w !! filename) as [[c|n]|] eqn:Hl; [done| |done].
  by destruct (Hn n).
Qed.

Lemma fopen_directory (w : World) (filename mode : string) (n : nat) :
  nodes w !! filename = Some (Directory n) ->
  fst (LLFile_fopen filename mode w) = None
  /\ nodes (snd (LLFile_fopen filename mode w)) = nodes w.
Proof.
  intros Hn. unfold LLFile_fopen, fopen. os_unfold. cbn.
  repeat (case_match; cbn; try done).
Qed.

Lemma open_for_write_append_regular (w : World) (this : LLFileSystem)
    (c : list byte) :
  mMode this = APPEND ->
  nodes w !! path_of this = Some (RegularFile c) ->
  open_for_write this w = (Some (mkFILE (path_of this) 0 true []), w).
Proof.
  intros Hm Hn. unfold open_for_write. rewrite Hm.
  change (APPEND =? APPEND) with true. cbv beta iota zeta.
  fold (path_of this). by rewrite (fopen_append_regular _ _ _ Hn).
Qed.


(** Every stream [write] gets to write to is open on the session's path,
    which then names a regular file; no other path is affected.  The
    stream is an appending one (mode [APPEND], contents kept), or sits at
    the cursor of an existing store (mode [READ_WRITE]), or sits at the
    start of an emptied or new store. *)
Lemma open_for_write_some (w w1 : World) (this : LLFileSystem) (ofs : FILE) :
  open_for_write this w = (Some ofs, w1) ->
  f_path ofs = path_of this
  /\ (forall q, q <> path_of this -> nodes w1 !! q = nodes w !! q)
  /\ exists c1, nodes w1 !! path_of this = Some (RegularFile c1)
     /\ ((f_append ofs = true /\ f_offset ofs = 0 /\ mMode this = APPEND
          /\ c1 = content_at w (path_of this))
         \/ (f_append ofs = false /\ f_offset ofs = mPosition this
             /\ 0 <= mPosition this /\ mMode this = READ_WRITE
             /\ w1 = w)
         \/ (f_append ofs = false /\ f_offset ofs = 0 /\ c1 = []
             /\ mMode this <> APPEND)).
Proof.
  unfold open_for_write. fold (path_of this). set (p := path_of this).
  destruct (mMode this =? APPEND) eqn:Ha.
  { apply Z.eqb_eq in Ha.
    destruct (nodes w !! p) as [[c|n]|] eqn:Hn.
    - rewrite (fopen_append_regular _ _ _ Hn). intros [= <- <-].
      cbn [f_path f_offset f_append f_pending]. split; [done|]. split; [done|].
      exists c. split; [done|]. left. unfold content_at. by rewrite Hn.
    - pose proof (fopen_directory w p "a+b" n Hn) as [Hf _].
      intros Ho. rewrite Ho in Hf. done.
    - rewrite (fopen_append_absent _ _ Hn). intros [= <- <-].
      cbn [f_path f_offset f_append f_pending nodes set_free_space set_nodes].
      split; [done|]. split.
      { intros q Hq. by rewrite lookup_insert_ne. }
      exists []. rewrite lookup_insert_eq. split; [done|]. left.
      unfold content_at. by rewrite Hn. }
  apply Z.eqb_neq in Ha.
  assert (Hwb : forall w0 : World,
    nodes w0 = nodes w ->
    (forall n, nodes w !! p <> Some (Directory n)) ->
    LLFile_fopen p "wb" w0 = (Some ofs, w1) ->
    f_path ofs = p
    /\ (forall q, q <> p -> nodes w1 !! q = nodes w !! q)
    /\ exists c1, nodes w1 !! p = Some (RegularFile c1)
       /\ ((f_append ofs = true /\ f_offset ofs = 0 /\ mMode this = APPEND
            /\ c1 = content_at w p)
           \/ (f_append ofs = false /\ f_offset ofs = mPosition this
               /\ 0 <= mPosition this /\ mMode this = READ_WRITE /\ w1 = w)
           \/ (f_append ofs = false /\ f_offset ofs = 0 /\ c1 = []
               /\ mMode this <> APPEND))).
  { intros w0 Hw0 Hnd. rewrite fopen_truncate by (by rewrite Hw0).
    intros [= <- <-].
    cbn [f_path f_offset f_append f_pending nodes set_free_space set_nodes].
    rewrite Hw0. split; [done|]. split.
    { intros q Hq. by rewrite lookup_insert_ne. }
    exists []. rewrite lookup_insert_eq. split; [done|]. right. by right. }
  destruct (mMode this =? READ_WRITE) eqn:Hrw.
  { apply Z.eqb_eq in Hrw. os_unfold.
    destruct (nodes w !! p) as [[c|n]|] eqn:Hn.
    - rewrite (fopen_update_regular _ _ _ Hn). cbv beta iota zeta.
      rewrite fseek_set. destruct (mPosition this <? 0) eqn:Hneg; [done|].
      apply Z.ltb_ge in Hneg. change (0 =? 0) with true. cbv beta iota zeta.
      intros [= <- <-]. cbn [f_path f_offset f_append f_pending].
      split; [done|]. split; [done|]. exists c. split; [done|].
      right. by left.
    - pose proof (fopen_directory w p "r+b" n Hn) as [Hf Hw'].
      destruct (LLFile_fopen p "r+b" w) as [[o|] w']; [done|].
      cbn [snd] in Hw'.
      pose proof (fopen_directory w' p "wb" n) as [Hf2 _].
      { by rewrite Hw'. }
      intros Ho. rewrite Ho in Hf2. done.
    - rewrite (fopen_update_absent _ _ Hn). by apply Hwb. }
  destruct (nodes w !! p) as [[c|n]|] eqn:Hn.
  - by apply Hwb.
  - pose proof (fopen_directory w p "wb" n Hn) as [Hf _].
    intros Ho. rewrite Ho in Hf. done.
  - by apply Hwb.
Qed.

(** When [write] gets no stream, the stores are as they were. *)
Lemma open_for_write_none (w w1 : World) (this : LLFileSystem) :
  open_for_write this w = (None, w1) -> nodes w1 = nodes w.
Proof.
  unfold open_for_write. fold (path_of this). set (p := path_of this).
  assert (Hwb : forall w0 : World,
    nodes w0 = nodes w -> LLFile_fopen p "wb" w0 = (None, w1) ->
    nodes w1 = nodes w).
  { intros w0 Hw0. destruct (nodes w !! p) as [[c|n]|] eqn:Hn.
    - rewrite fopen_truncate; [done|]. intros n. by rewrite Hw0, Hn.
    - pose proof (fopen_directory w0 p "wb" n) as [_ Hw'].
      { by rewrite Hw0. }
      intros Ho. rewrite Ho in Hw'. cbn [snd] in Hw'. by rewrite Hw'.
    - rewrite fopen_truncate; [done|]. intros n. by rewrite Hw0, Hn. }
  destruct (mMode this =? APPEND).
  { destruct (nodes w !! p) as [[c|n]|] eqn:Hn.
    - by rewrite (fopen_append_regular _ _ _ Hn).
    - pose proof (fopen_directory w p "a+b" n Hn) as [_ Hw'].
      intros Ho. rewrite Ho in Hw'. done.
    - by rewrite (fopen_append_absent _ _ Hn). }
  destruct (mMode this =? READ_WRITE); [|by apply Hwb].
  os_unfold. destruct (nodes w !! p) as [[c|n]|] eqn:Hn.
  - rewrite (fopen_update_regular _ _ _ Hn). cbv beta iota zeta.
    rewrite fseek_set. destruct (mPosition this <? 0); [|done].
    cbv beta iota zeta. change (-1 =? 0) with false. cbv beta iota zeta.
    by intros [= <-].
  - pose proof (fopen_directory w p "r+b" n Hn) as [Hf Hw'].
    destruct (LLFile_fopen p "r+b" w) as [[o|] w']; [done|].
    cbn [snd] in Hw'. by apply Hwb.
  - rewrite (fopen_update_absent _ _ Hn). by apply Hwb.
Qed.

(** Opening a stream stores nothing and takes no room; the stream it
    yields holds no unstored bytes. *)
Lemma fopen_world (filename mode : string) (w : World) :
  let r := LLFile_fopen filename mode w in
  (free_space w <= free_space (snd r))%nat
  /\ stored_total (snd r) = stored_total w
  /\ bufsiz (snd r) = bufsiz w
  /\ touched (snd r) = touched w
  /\ llwarns (snd r) = llwarns w
  /\ (forall ofs, fst r = Some ofs -> f_pending ofs = []).
Proof.
  cbv zeta. unfold LLFile_fopen, fopen, truncate_node. os_unfold.
  repeat case_match; cbn; repeat split; try done; try lia;
    by intros ? [= <-].
Qed.

Lemma open_for_write_world (w : World) (this : LLFileSystem) :
  let r := open_for_write this w in
  (free_space w <= free_space (snd r))%nat
  /\ stored_total (snd r) = stored_total w
  /\ bufsiz (snd r) = bufsiz w
  /\ touched (snd r) = touched w
  /\ llwarns (snd r) = llwarns w
  /\ (forall ofs, fst r = Some ofs -> f_pending ofs = []).
Proof.
  cbv zeta. unfold open_for_write. fold (path_of this).
  destruct (mMode this =? APPEND); [apply fopen_world|].
  destruct (mMode this =? READ_WRITE); [|apply fopen_world].
  os_unfold.
  pose proof (fopen_world (path_of this) "r+b" w) as (H1 & H2 & H3 & H4 & H5 & H6).
  destruct (LLFile_fopen (path_of this) "r+b" w) as [[ofs|] w1].
  - cbn [fst snd] in *. rewrite fseek_set.
    destruct (mPosition this <? 0); cbn; repeat split; try done.
    intros ? [= <-]. cbn [f_pending]. by apply H6.
  - cbn [fst snd] in *.
    pose proof (fopen_world (path_of this) "wb" w1) as (G1 & G2 & G3 & G4 & G5 & G6).
    repeat split; try done; try congruence. lia.
Qed.

(** What a [write] that got a stream does: the volume takes what it has
    room for, at the place the stream writes to; the result compares what
    [fwrite] accepted with [bytes], and the cursor becomes what [ftell]
    counts. *)
Lemma write_effect (w w1 : World) (this : LLFileSystem) (ofs : FILE)
    (buffer c1 : list byte) (bytes : Z) :
  open_for_write this w = (Some ofs, w1) ->
  nodes w1 !! path_of this = Some (RegularFile c1) ->
  let start := if f_append ofs then length c1 else Z.to_nat (f_offset ofs) in
  let want := take (Z.to_nat (size_t bytes)) buffer in
  let room := (length c1 - start + free_space w1)%nat in
  let data := take room want in
  let a := accepted_count (bufsiz w) room (length want) in
  let r := write this buffer bytes w in
  fst (fst r) = (s32 (Z.of_nat a) =? bytes)
  /\ snd (fst r)
     = set_mPosition
         (s32 (if (length want =? 0)%nat then f_offset ofs
               else Z.of_nat (start + a))) this
  /\ nodes (snd r)
     = (if (length data =? 0)%nat then nodes w1
        else <[path_of this := RegularFile (spliced c1 start data)]> (nodes w1))
  /\ stored_total (snd r) = (stored_total w + length data)%nat
  /\ free_space (snd r) = (free_space w1 - (length data - (length c1 - start)))%nat
  /\ touched (snd r) = touched w /\ llwarns (snd r) = llwarns w
  /\ bufsiz (snd r) = bufsiz w.
Proof.
  intros Ho Hn1. cbv zeta.
  destruct (open_for_write_some _ _ _ _ Ho) as (Hp & _).
  pose proof (open_for_write_world w this) as (_ & Hst & Hbuf & Hto & Hll & Hpend).
  rewrite Ho in Hst, Hbuf, Hto, Hll, Hpend. cbn [fst snd] in *.
  specialize (Hpend ofs eq_refl). rewrite <- Hp in Hn1.
  pose proof (stream_write w1 ofs buffer c1 (size_t bytes) Hn1 Hpend) as Hsw.
  cbv zeta in Hsw. rewrite write_unfold, Ho.
  destruct (fwrite buffer (size_t bytes) ofs w1) as [[written ofs'] w2].
  cbn [fst snd] in *.
  destruct Hsw as (-> & -> & -> & -> & -> & -> & -> & ->).
  by rewrite Hp, Hst, Hbuf, Hto, Hll.
Qed.

(** When [write] gets no stream it reports failure and stores nothing. *)
Lemma write_unopened (w w1 : World) (this : LLFileSystem) (buffer : list byte)
    (bytes : Z) :
  open_for_write this w = (None, w1) ->
  write this buffer bytes w = ((FALSE, this), w1)
  /\ nodes w1 = nodes w /\ stored_total w1 = stored_total w.
Proof.
  intros Ho. rewrite write_unfold, Ho. split; [done|].
  split; [by apply (open_for_write_none _ _ _ Ho)|].
  pose proof (open_for_write_world w this) as (_ & Hst & _).
  by rewrite Ho in Hst.
Qed.


(** ** Appending *)

Lemma seek_keeps_identity (w : World) (this : LLFileSystem) (offset origin : Z) :
  let r := seek this offset origin w in
  path_of (snd (fst r)) = path_of this
  /\ mMode (snd (fst r)) = mMode this
  /\ nodes (snd r) = nodes w.
Proof.
  cbv zeta. unfold seek. os_unfold.
  pose proof (getFileSize_world w (mFileID this) (mFileType this)) as (Hn & _).
  unfold getSize.
  destruct (getFileSize (mFileID this) (mFileType this) w) as [sz w'].
  cbn [snd] in Hn. repeat case_match; by cbn.
Qed.

Lemma seek_world (w : World) (this : LLFileSystem) (offset origin : Z) :
  free_space (snd (seek this offset origin w)) = free_space w.
Proof.
  unfold seek. os_unfold.
  pose proof (getFileSize_world w (mFileID this) (mFileType this)) as (_ & Hf & _).
  unfold getSize.
  destruct (getFileSize (mFileID this) (mFileType this) w) as [sz w'].
  cbn [snd] in Hf. repeat case_match; by cbn.
Qed.

(** An appending [write] that finds room on the volume puts its bytes
    behind the stored ones, wherever the cursor is. *)
Lemma append_any_cursor (w : World) (this : LLFileSystem) (C B : list byte) :
  mMode this = APPEND ->
  nodes w !! path_of this = Some (RegularFile C) ->
  Z.of_nat (length (C ++ B)) <= getMaxSize ->
  (length B <= free_space w)%nat ->
  let r := write this B (Z.of_nat (length B)) w in
  fst (fst r) = TRUE
  /\ nodes (snd r) !! path_of this = Some (RegularFile (C ++ B))
  /\ (B <> [] -> tell (snd (fst r)) = Z.of_nat (length (C ++ B)))
  /\ free_space (snd r) = (free_space w - length B)%nat.
Proof.
  intros Hm Hn Hfits Hroom r. subst r.
  unfold getMaxSize, INT_MAX in Hfits. rewrite length_app in Hfits.
  destruct (write_effect w w this _ B C (Z.of_nat (length B))
              (open_for_write_append_regular _ _ _ Hm Hn) Hn)
    as (Hs & Ht & Hnodes & _ & Hfree & _).
  cbn [f_append f_offset] in *.
  rewrite size_t_id in * by (unfold INT_MAX; lia).
  rewrite Nat2Z.id, firstn_all in *.
  rewrite (take_ge B) in * by lia.
  rewrite accepted_count_room in * by lia.
  rewrite s32_id in Hs by (unfold is_S32, INT_MIN, INT_MAX; lia).
  rewrite Hs, Hnodes, Hfree, Ht.
  split; [by apply Z.eqb_eq|].
  destruct (length B =? 0)%nat eqn:Hz.
  - apply Nat.eqb_eq in Hz.
    assert (B = []) as -> by (by apply length_zero_iff_nil).
    rewrite app_nil_r. cbn [length]. split; [done|]. split; [done|lia].
  - rewrite lookup_insert_eq, spliced_at_end. split; [done|]. split; [|lia].
    intros _. unfold tell. cbn [mPosition set_mPosition].
    rewrite length_app. apply s32_id.
    unfold is_S32, INT_MIN, INT_MAX. lia.
Qed.

(** An appending [write] puts the bytes that reach the store behind the
    stored ones, wherever the cursor is and whatever room there is. *)
Lemma append_content (w : World) (this : LLFileSystem) (C B : list byte) :
  mMode this = APPEND ->
  nodes w !! path_of this = Some (RegularFile C) ->
  Z.of_nat (length (C ++ B)) <= getMaxSize ->
  let r := write this B (Z.of_nat (length B)) w in
  let stored := (stored_total (snd r) - stored_total w)%nat in
  nodes (snd r) !! path_of this = Some (RegularFile (C ++ take stored B)).
Proof.
  intros Hm Hn Hfits r stored. subst r stored.
  unfold getMaxSize, INT_MAX in Hfits. rewrite length_app in Hfits.
  destruct (write_effect w w this _ B C (Z.of_nat (length B))
              (open_for_write_append_regular _ _ _ Hm Hn) Hn)
    as (_ & _ & Hnodes & Hst & _).
  cbn [f_append f_offset] in *.
  rewrite size_t_id in * by (unfold INT_MAX; lia).
  rewrite Nat2Z.id, firstn_all in *.
  rewrite Hnodes, Hst.
  match goal with
  | |- context [take ?room B] => set (data := take room B)
  end.
  replace (stored_total w + length data - stored_total w)%nat
    with (length data) by lia.
  subst data. rewrite take_length_take.
  destruct (length (take _ B) =? 0)%nat eqn:Hz.
  - apply Nat.eqb_eq, length_zero_iff_nil in Hz.
    by rewrite Hz, app_nil_r.
  - by rewrite lookup_insert_eq, spliced_at_end.
Qed.

(** C5 (amended).  In [APPEND] mode, on a store holding [C], a write of
    [B] leaves in the store [C] followed by the bytes of [B] that reached
    it, whatever seek was made before it; on a volume with room for [B]
    these are all of [B], the write succeeds, and when [B] is not empty
    the cursor is afterwards the new end of the store.  The store stays
    within [getMaxSize] bytes. *)
Theorem append_after_any_seek
    (w : World) (this : LLFileSystem) (C B : list byte) (offset origin : Z) :
  mMode this = APPEND ->
  nodes w !! path_of this = Some (RegularFile C) ->
  Z.of_nat (length (C ++ B)) <= getMaxSize ->
  let sought := seek this offset origin w in
  let r := write (snd (fst sought)) B (Z.of_nat (length B)) (snd sought) in
  let stored := (stored_total (snd r) - stored_total (snd sought))%nat in
  nodes (snd r) !! path_of this = Some (RegularFile (C ++ take stored B))
  /\ ((length B <= free_space w)%nat ->
      fst (fst r) = TRUE
      /\ nodes (snd r) !! path_of this = Some (RegularFile (C ++ B))
      /\ (B <> [] ->
          tell (snd (fst r)) = Z.of_nat (length (C ++ B))
          /\ fst (getSize (snd (fst r)) (snd r)) = tell (snd (fst r)))).
Proof.
  intros Hm Hn Hfits sought r stored.
  pose proof (seek_keeps_identity w this offset origin) as (Hp & Hmode & Hnodes).
  pose proof (seek_world w this offset origin) as Hfree.
  fold sought in Hp, Hmode, Hnodes, Hfree.
  split.
  { pose proof (append_content (snd sought) (snd (fst sought)) C B) as Hc.
    rewrite Hp, Hmode, Hnodes in Hc. by apply Hc. }
  intros Hroom.
  destruct (append_any_cursor (snd sought) (snd (fst sought)) C B)
    as (Hs & Hc & Ht & _); try done.
  { by rewrite Hmode. }
  { by rewrite Hp, Hnodes. }
  { by rewrite Hfree. }
  rewrite Hp in Hc. fold r in Hs, Hc, Ht. split; [done|]. split; [done|].
  intros HB. split; [by apply Ht|].
  pose proof (write_keeps_identity (snd sought) (snd (fst sought)) B
                (Z.of_nat (length B))) as (Hid & Hty & _).
  fold r in Hid, Hty.
  unfold getSize. rewrite getFileSize_value, Hid, Hty.
  fold (path_of (snd (fst sought))). rewrite Hp.
  rewrite (store_size_regular _ _ _ Hc), (Ht HB). apply s32_id.
  unfold getMaxSize, INT_MAX in Hfits. unfold is_S32, INT_MIN, INT_MAX. lia.
Qed.

(** ** Updating in place *)



(** ** The cursor stays within the store *)

Lemma store_size_same_nodes (w w' : World) (p : string) :
  nodes w' = nodes w -> store_size w' p = store_size w p.
Proof. unfold store_size. by intros ->. Qed.

Lemma LLFileSystem_new_result (w0 : World) (file_id : LLUUID)
    (file_type : EType) (mode : Z) :
  fst (LLFileSystem_new file_id file_type mode w0)
  = mkLLFileSystem file_id file_type 0 0 mode
  /\ nodes (snd (LLFileSystem_new file_id file_type mode w0)) = nodes w0.
Proof.
  unfold LLFileSystem_new, fileExists, updateFileAccessTime. os_unfold.
  cbn [mFileID mFileType].
  destruct (mode =? READ); [|done].
  destruct (nodes w0 !! filename_of file_id file_type) as [[c|n]|] eqn:Hn.
  - rewrite (LLFile_stat_regular _ _ _ Hn). cbv beta iota zeta.
    by destruct (_ && _).
  - rewrite (LLFile_stat_directory _ _ _ Hn). cbv beta iota zeta.
    by destruct (_ && _).
  - rewrite (LLFile_stat_absent _ _ Hn). cbv beta iota zeta.
    by destruct (_ && _).
Qed.

Lemma read_not_regular (w : World) (this : LLFileSystem) (bytes : Z) :
  (forall c, nodes w !! path_of this <> Some (RegularFile c)) ->
  fst (read this bytes w) = (FALSE, [], this)
  /\ nodes (snd (read this bytes w)) = nodes w.
Proof.
  intros Hn. unfold read, LLFile_fopen, fopen. os_unfold.
  fold (path_of this). cbn [String.eqb Ascii.eqb Bool.eqb orb].
  destruct (nodes w !! path_of this) as [[c|n]|]; [by destruct (Hn c)|done..].
Qed.

Lemma exec_keeps_path (w : World) (this : LLFileSystem) (op : Op) :
  path_of (fst (exec op this w)) = path_of this.
Proof.
  destruct op as [bytes|buffer bytes|offset origin| |]; unfold exec; os_run.
  - unfold read. os_run.
    destruct (LLFile_fopen _ _ w) as [[file|] w1]; [|done].
    destruct (fseek _ _ _ w1) as [[rc file'] w2].
    destruct (rc =? 0); [|done].
    destruct (fread _ _ w2) as [[data file''] w3].
    by destruct (fclose file'' w3).
  - rewrite write_unfold.
    destruct (open_for_write this w) as [[ofs|] w1]; [|done].
    by destruct (fwrite _ _ _ w1) as [[written ofs'] w2].
  - pose proof (seek_keeps_identity w this offset origin) as (Hp & _).
    by destruct (seek this offset origin w) as [[b this'] w'].
  - done.
  - by destruct (eof this w).
Qed.

(** One operation keeps the cursor within the store, provided the volume
    has room for what it writes and the store is within [getMaxSize]
    bytes before and after. *)
Lemma exec_keeps_cursor_within (w : World) (this : LLFileSystem) (op : Op) :
  room_for op w ->
  store_size w (path_of this) <= getMaxSize ->
  0 <= mPosition this <= store_size w (path_of this) ->
  store_size (snd (exec op this w)) (path_of this) <= getMaxSize ->
  0 <= mPosition (fst (exec op this w))
    <= store_size (snd (exec op this w)) (path_of this).
Proof.
  unfold getMaxSize, INT_MAX. intros Hroom Hfits Hinv.
  destruct op as [bytes|buffer bytes|offset origin| |]; unfold exec; os_run.
  - (* read *)
    destruct (nodes w !! path_of this) as [[c|n]|] eqn:Hn.
    + rewrite (read_regular _ _ _ _ Hn).
      rewrite (store_size_regular _ _ _ Hn) in *.
      assert ((mPosition this <? 0) = false) as -> by (apply Z.ltb_ge; lia).
      cbv zeta.
      set (data := take (Z.to_nat (size_t bytes))
                     (drop (Z.to_nat (mPosition this)) c)).
      assert (Hlen : (length data <= length c - Z.to_nat (mPosition this))%nat).
      { subst data. rewrite length_take, length_drop. lia. }
      cbn [fst snd mPosition set_mPosition].
      rewrite (store_size_regular _ _ _ Hn).
      rewrite (s32_id (Z.of_nat (length data)))
        by (unfold is_S32, INT_MIN, INT_MAX; lia).
      rewrite s32_id by (unfold is_S32, INT_MIN, INT_MAX; lia). lia.
    + destruct (read_not_regular w this bytes) as [Hr Hw].
      { intros c. by rewrite Hn. }
      destruct (read this bytes w) as [[[b data] this'] w'].
      cbn [fst snd] in *. simplify_eq.
      by rewrite (store_size_same_nodes _ _ _ Hw).
    + destruct (read_not_regular w this bytes) as [Hr Hw].
      { intros c. by rewrite Hn. }
      destruct (read this bytes w) as [[[b data] this'] w'].
      cbn [fst snd] in *. simplify_eq.
      by rewrite (store_size_same_nodes _ _ _ Hw).
  - (* write *)
    cbn [room_for] in Hroom.
    destruct (open_for_write this w) as [[ofs|] w1] eqn:Ho.
    + destruct (open_for_write_some _ _ _ _ Ho) as (Hp & _ & c1 & Hn1 & Hcase).
      pose proof (open_for_write_world w this) as (Hfree & _).
      rewrite Ho in Hfree. cbn [snd] in Hfree.
      destruct (write_effect w w1 this ofs buffer c1 bytes Ho Hn1)
        as (_ & Ht & Hnodes & _).
      destruct (write this buffer bytes w) as [[b this'] w'].
      cbn [fst snd] in *. subst this'. cbn [mPosition set_mPosition].
      unfold store_size. rewrite Hnodes.
      set (start := if f_append ofs then length c1
                    else Z.to_nat (f_offset ofs)) in *.
      set (want := take (Z.to_nat (size_t bytes)) buffer) in *.
      set (room := (length c1 - start + free_space w1)%nat) in *.
      assert (Hwant : (length want <= room)%nat).
      { subst want room. rewrite length_take. lia. }
      rewrite accepted_count_room by done.
      rewrite (take_ge want) by done.
      assert (Hoff : 0 <= f_offset ofs <= Z.of_nat (length c1)).
      { destruct Hcase as [(_ & -> & _)|[(_ & -> & ? & _ & ->)|(_ & -> & _)]];
          [lia| |lia].
        rewrite (store_size_regular _ _ _ Hn1) in Hinv. lia. }
      destruct (length want =? 0)%nat.
      * rewrite Hn1. intros Hafter.
        rewrite s32_id by (unfold is_S32, INT_MIN, INT_MAX; lia). lia.
      * rewrite lookup_insert_eq, length_spliced. intros Hafter.
        rewrite s32_id by (unfold is_S32, INT_MIN, INT_MAX; lia). lia.
    + destruct (write_unopened _ _ this buffer bytes Ho) as (-> & Hnodes & _).
      cbn [fst snd]. by rewrite (store_size_same_nodes _ _ _ Hnodes).
  - (* seek *)
    unfold seek, getSize. os_unfold.
    pose proof (getFileSize_value w (mFileID this) (mFileType this)) as Hv.
    pose proof (getFileSize_world w (mFileID this) (mFileType this)) as (Hw & _).
    fold (path_of this) in Hv.
    destruct (getFileSize (mFileID this) (mFileType this) w) as [sz w'].
    cbn [fst snd] in Hv, Hw.
    rewrite s32_id in Hv by (unfold is_S32, INT_MIN, INT_MAX; lia).
    subst sz.
    set (new_pos := s32 ((if -1 =? origin then mPosition this else origin)
                         + offset)).
    destruct (store_size w (path_of this) <? new_pos) eqn:Hend;
      [|destruct (new_pos <? 0) eqn:Hbegin];
      cbn [fst snd mPosition set_mPosition]; intros _.
    + rewrite (store_size_same_nodes w (add_llwarn _ w')) by done. lia.
    + rewrite (store_size_same_nodes w (add_llwarn _ w')) by done. lia.
    + rewrite (store_size_same_nodes w w') by done.
      apply Z.ltb_ge in Hend, Hbegin. lia.
  - (* tell *)
    done.
  - (* eof *)
    unfold eof, getSize. os_unfold.
    pose proof (getFileSize_world w (mFileID this) (mFileType this)) as (Hw & _).
    destruct (getFileSize (mFileID this) (mFileType this) w) as [sz w'].
    cbn [fst snd] in *. by rewrite (store_size_same_nodes _ _ _ Hw).
Qed.

Lemma reachable_within (w : World) (this : LLFileSystem) :
  reachable w this ->
  store_size w (path_of this) <= getMaxSize
  /\ 0 <= mPosition this <= store_size w (path_of this).
Proof.
  induction 1
    as [w0 file_id file_type mode Hfits|w this op Hreach IH Hroom Hfits].
  - destruct (LLFileSystem_new_result w0 file_id file_type mode) as [-> Hw].
    unfold path_of. cbn [mFileID mFileType mPosition].
    rewrite (store_size_same_nodes _ _ _ Hw). split; [done|].
    pose proof (store_size_nonneg w0 (filename_of file_id file_type)). lia.
  - destruct IH as [Hbefore Hinv]. split; [done|].
    rewrite exec_keeps_path in *. by apply exec_keeps_cursor_within.
Qed.

(** X20.  Through the life of a session (its construction, followed by
    any reads, writes in whatever mode, seeks, [tell]s and [eof]s) the
    cursor lies between 0 and the current size of the store after every
    operation, rejected seeks included, for as long as the volume has room
    for the bytes of every write and the store stays within [getMaxSize]
    bytes. *)
Theorem cursor_within_store (w : World) (this : LLFileSystem) :
  reachable w this ->
  0 <= tell this <= fst (getSize this w).
Proof.
  intros Hreach. destruct (reachable_within _ _ Hreach) as [Hfits Hinv].
  unfold tell, getSize. rewrite getFileSize_value. fold (path_of this).
  pose proof (store_size_nonneg w (path_of this)).
  rewrite s32_id; [done|].
  unfold getMaxSize, INT_MAX in Hfits. unfold is_S32, INT_MIN, INT_MAX. lia.
Qed.

(** * Further properties of the accessor *)

(** ** Queries *)

Lemma eof_value (w : World) (this : LLFileSystem) :
  fst (eof this w) = (s32 (store_size w (path_of this)) <=? mPosition this).
Proof.
  unfold eof, getSize. os_unfold.
  pose proof (getFileSize_value w (mFileID this) (mFileType this)) as Hv.
  destruct (getFileSize (mFileID this) (mFileType this) w) as [sz w'].
  cbn [fst] in *. by rewrite Hv.
Qed.

Lemma getExists_value (w : World) (file_id : LLUUID) (file_type : EType) :
  fst (getExists file_id file_type w)
  = match nodes w !! filename_of file_id file_type with
    | Some (RegularFile c) => (0 <? Z.of_nat (length c))
    | _ => false
    end.
Proof.
  unfold getExists. os_unfold.
  destruct (nodes w !! filename_of file_id file_type) as [[c|n]|] eqn:Hn.
  - by rewrite (LLFile_stat_regular _ _ _ Hn).
  - by rewrite (LLFile_stat_directory _ _ _ Hn).
  - by rewrite (LLFile_stat_absent _ _ Hn).
Qed.

Lemma getExists_world (w : World) (file_id : LLUUID) (file_type : EType) :
  let w' := snd (getExists file_id file_type w) in
  nodes w' = nodes w /\ free_space w' = free_space w
  /\ llwarns w' = llwarns w /\ touched w' = touched w.
Proof.
  unfold getExists. os_unfold.
  destruct (nodes w !! filename_of file_id file_type) as [[c|n]|] eqn:Hn.
  - by rewrite (LLFile_stat_regular _ _ _ Hn).
  - by rewrite (LLFile_stat_directory _ _ _ Hn).
  - by rewrite (LLFile_stat_absent _ _ Hn).
Qed.

(** X1.  Construction yields a session on the given identity with cursor 0,
    no bytes read and the mode as given, and changes neither a store nor
    the warning log.  It refreshes the access time of the session's path
    exactly when the mode is [READ] and a regular file is there; a missing
    store is no error. *)
Theorem construction_touches_when_reading
    (w0 : World) (file_id : LLUUID) (file_type : EType) (mode : Z) :
  let r := LLFileSystem_new file_id file_type mode w0 in
  let filename := filename_of file_id file_type in
  fst r = mkLLFileSystem file_id file_type 0 0 mode
  /\ nodes (snd r) = nodes w0
  /\ free_space (snd r) = free_space w0
  /\ llwarns (snd r) = llwarns w0
  /\ touched (snd r)
     = match nodes w0 !! filename with
       | Some (RegularFile _) =>
           if mode =? READ then touched w0 ++ [filename] else touched w0
       | _ => touched w0
       end.
Proof.
  cbv zeta. unfold LLFileSystem_new, fileExists, updateFileAccessTime.
  os_unfold. cbn [mFileID mFileType].
  destruct (nodes w0 !! filename_of file_id file_type) as [[c|n]|] eqn:Hn.
  - destruct (mode =? READ); [|done].
    rewrite (LLFile_stat_regular _ _ _ Hn). cbv beta iota zeta.
    change ((0 =? 0) && S_ISREG (st_mode (mk_llstat (Z.lor S_IFREG 420)
                                            (Z.of_nat (length c)))))
      with true.
    by cbv beta iota zeta.
  - destruct (mode =? READ); [|done].
    rewrite (LLFile_stat_directory _ _ _ Hn). cbv beta iota zeta.
    change ((0 =? 0) && S_ISREG (st_mode (mk_llstat (Z.lor S_IFDIR 493)
                                            (Z.of_nat n))))
      with false.
    by cbv beta iota zeta.
  - destruct (mode =? READ); [|done].
    rewrite (LLFile_stat_absent _ _ Hn). by cbv beta iota zeta.
Qed.

(** X2.  For a store within [getMaxSize] bytes, a positive answer of
    [getExists] means that [getFileSize] is at least 1; on a path that
    names nothing [getExists] is false and [getFileSize] is 0; and on a
    directory [getExists] is false whatever size [getFileSize] reports. *)
Theorem getExists_and_getFileSize_agree
    (w : World) (file_id : LLUUID) (file_type : EType) :
  let filename := filename_of file_id file_type in
  store_size w filename <= getMaxSize ->
  (fst (getExists file_id file_type w) = true ->
   1 <= fst (getFileSize file_id file_type w))
  /\ (nodes w !! filename = None ->
      fst (getExists file_id file_type w) = false
      /\ fst (getFileSize file_id file_type w) = 0)
  /\ (forall n, nodes w !! filename = Some (Directory n) ->
      fst (getExists file_id file_type w) = false
      /\ fst (getFileSize file_id file_type w) = Z.of_nat n).
Proof.
  intros filename Hfits. unfold getMaxSize, INT_MAX in Hfits.
  rewrite getExists_value, getFileSize_value. fold filename.
  pose proof (store_size_nonneg w filename) as Hnn.
  rewrite s32_id by (unfold is_S32, INT_MIN, INT_MAX; lia).
  unfold store_size in *.
  destruct (nodes w !! filename) as [[c|n]|]; repeat split; try done.
  - intros H. apply Z.ltb_lt in H. lia.
  - by simplify_eq.
Qed.

(** ** Reading to the end *)

(** X3.  A read that obtains fewer bytes than it asked for has reached the
    end of the store: [eof] is true afterwards.  The store is a regular
    file within [getMaxSize] bytes and the cursor is a non-negative
    [S32]. *)
Theorem short_read_reaches_eof
    (w : World) (this : LLFileSystem) (bytes : Z) (c : list byte) :
  nodes w !! path_of this = Some (RegularFile c) ->
  Z.of_nat (length c) <= getMaxSize ->
  0 <= mPosition this <= INT_MAX ->
  0 <= bytes <= INT_MAX ->
  let r := read this bytes w in
  Z.of_nat (length (snd (fst (fst r)))) < bytes ->
  fst (eof (snd (fst r)) (snd r)) = true.
Proof.
  intros Hn Hfits Hpos Hbytes. cbv zeta. unfold getMaxSize, INT_MAX in *.
  rewrite (read_regular _ _ _ _ Hn).
  assert ((mPosition this <? 0) = false) as -> by (apply Z.ltb_ge; lia).
  cbv zeta. rewrite size_t_id by (unfold INT_MAX; lia).
  set (data := take (Z.to_nat bytes) (drop (Z.to_nat (mPosition this)) c)).
  cbn [fst snd]. intros Hshort.
  assert (Hlen : length data = (length c - Z.to_nat (mPosition this))%nat).
  { subst data. rewrite length_take, length_drop in *. lia. }
  rewrite eof_value. unfold path_of.
  cbn [mFileID mFileType mPosition set_mPosition set_mBytesRead].
  fold (path_of this). rewrite (store_size_regular _ _ _ Hn).
  rewrite (s32_id (Z.of_nat (length c)))
    by (unfold is_S32, INT_MIN, INT_MAX; lia).
  rewrite (s32_id (Z.of_nat (length data)))
    by (unfold is_S32, INT_MIN, INT_MAX; lia).
  rewrite s32_id by (unfold is_S32, INT_MIN, INT_MAX; lia).
  apply Z.leb_le. lia.
Qed.

(** X4.  Where [eof] is true, a read obtains nothing: it reports failure,
    hands back no byte and leaves the cursor where it was.  This holds
    whether the path names a regular file, a directory or nothing, for a
    store within [getMaxSize] bytes and an [S32] cursor. *)
Theorem read_at_eof_obtains_nothing
    (w : World) (this : LLFileSystem) (bytes : Z) :
  store_size w (path_of this) <= getMaxSize ->
  is_S32 (mPosition this) ->
  fst (eof this w) = true ->
  let r := read this bytes w in
  fst (fst (fst r)) = FALSE
  /\ snd (fst (fst r)) = []
  /\ tell (snd (fst r)) = tell this.
Proof.
  intros Hfits Hpos Heof. cbv zeta. unfold getMaxSize in *.
  rewrite eof_value in Heof. apply Z.leb_le in Heof.
  pose proof (store_size_nonneg w (path_of this)) as Hnn.
  rewrite s32_id in Heof
    by (unfold is_S32, INT_MIN, INT_MAX in *; lia).
  destruct (nodes w !! path_of this) as [[c|n]|] eqn:Hn.
  - rewrite (read_regular _ _ _ _ Hn).
    rewrite (store_size_regular _ _ _ Hn) in *.
    assert ((mPosition this <? 0) = false) as -> by (apply Z.ltb_ge; lia).
    cbv zeta. rewrite drop_ge by lia. rewrite take_nil.
    cbn [fst snd length]. change (s32 (Z.of_nat 0)) with 0.
    unfold tell. cbn [mPosition set_mPosition set_mBytesRead].
    rewrite Z.add_0_r, s32_id by done. done.
  - destruct (read_not_regular w this bytes) as [-> _]; [|done].
    intros c. by rewrite Hn.
  - destruct (read_not_regular w this bytes) as [-> _]; [|done].
    intros c. by rewrite Hn.
Qed.

(** ** Writing from the start of a store *)

Lemma spliced_fresh (data : list byte) : spliced [] 0 data = data.
Proof. unfold spliced. cbn. by rewrite drop_nil, app_nil_r. Qed.

(** What [write] does once it has a stream at the start of an empty
    store: the store receives a prefix of the buffer; when the volume has
    room for [bytes] bytes and the buffer holds them, it receives them
    all, the cursor becomes [bytes] and the call reports success. *)
Lemma write_on_fresh_stream (w w1 : World) (this : LLFileSystem) (app : bool)
    (buffer : list byte) (bytes : Z) :
  open_for_write this w = (Some (mkFILE (path_of this) 0 app []), w1) ->
  nodes w1 !! path_of this = Some (RegularFile []) ->
  0 <= bytes <= INT_MAX ->
  let r := write this buffer bytes w in
  let data := content_at (snd r) (path_of this) in
  nodes (snd r) !! path_of this = Some (RegularFile data)
  /\ data = take (length data) buffer
  /\ (length data <= Z.to_nat bytes)%nat
  /\ ((Z.to_nat bytes <= free_space w1)%nat ->
      (Z.to_nat bytes <= length buffer)%nat ->
      data = take (Z.to_nat bytes) buffer
      /\ snd (fst r) = set_mPosition bytes this
      /\ fst (fst r) = TRUE).
Proof.
  intros Ho Hn1 Hbytes. cbv zeta.
  destruct (write_effect w w1 this _ buffer [] bytes Ho Hn1)
    as (Hs & Ht & Hnodes & _).
  cbn [f_append f_offset length] in *. rewrite size_t_id in * by done.
  assert (Hstart : (if app then 0%nat else Z.to_nat 0) = 0%nat)
    by (by destruct app).
  rewrite Hstart in *. rewrite Nat.sub_0_r, Nat.add_0_l in *.
  set (want := take (Z.to_nat bytes) buffer) in *.
  set (data := take (free_space w1) want) in *.
  assert (Hlen : (length data <= Z.to_nat bytes)%nat).
  { subst data want. rewrite !length_take. lia. }
  assert (Hpre : data = take (length data) buffer).
  { subst data want. rewrite take_take. by rewrite take_length_take. }
  assert (Hc : nodes (snd (write this buffer bytes w)) !! path_of this
               = Some (RegularFile data)).
  { rewrite Hnodes. destruct (length data =? 0)%nat eqn:Hz.
    - apply Nat.eqb_eq, length_zero_iff_nil in Hz. by rewrite Hz.
    - by rewrite lookup_insert_eq, spliced_fresh. }
  unfold content_at. rewrite Hc.
  split; [done|]. split; [done|]. split; [done|].
  intros Hroom Hbuf.
  assert (Hwl : length want = Z.to_nat bytes).
  { subst want. rewrite length_take. lia. }
  assert (Hdw : data = want) by (subst data; apply take_ge; lia).
  split; [done|].
  rewrite Hs, Ht. rewrite !accepted_count_room by lia.
  rewrite Hwl, Z2Nat.id by lia.
  assert (Hid : s32 bytes = bytes)
    by (apply s32_id; unfold is_S32, INT_MIN, INT_MAX in *; lia).
  rewrite Hid. split; [|by apply Z.eqb_eq].
  destruct (Z.to_nat bytes =? 0)%nat eqn:Hz; [|by rewrite Hid].
  apply Nat.eqb_eq in Hz. by replace bytes with 0 by lia.
Qed.

Lemma open_for_write_truncating (w : World) (this : LLFileSystem) :
  mMode this <> APPEND ->
  mMode this <> READ_WRITE ->
  (forall n, nodes w !! path_of this <> Some (Directory n)) ->
  open_for_write this w
  = (Some (mkFILE (path_of this) 0 false []),
     set_free_space (free_space w + length (content_at w (path_of this)))
       (set_nodes (<[path_of this := RegularFile []]> (nodes w)) w)).
Proof.
  intros Ha Hrw Hn. unfold open_for_write. fold (path_of this).
  apply Z.eqb_neq in Ha, Hrw. rewrite Ha, Hrw. by apply fopen_truncate.
Qed.

(** X5.  In the default (truncating) mode a write discards whatever the
    store held and wherever the cursor was: afterwards the store holds a
    prefix of the buffer of at most [bytes] bytes; when the volume has
    room for [bytes] more bytes and the buffer holds them, the store holds
    exactly the first [bytes] bytes of the buffer, the cursor is [bytes]
    and the call reports success. *)
Theorem truncating_write_replaces_store
    (w : World) (this : LLFileSystem) (buffer : list byte) (bytes : Z) :
  mMode this <> APPEND ->
  mMode this <> READ_WRITE ->
  (forall n, nodes w !! path_of this <> Some (Directory n)) ->
  0 <= bytes <= INT_MAX ->
  let r := write this buffer bytes w in
  let data := content_at (snd r) (path_of this) in
  nodes (snd r) !! path_of this = Some (RegularFile data)
  /\ data = take (length data) buffer
  /\ (length data <= Z.to_nat bytes)%nat
  /\ ((Z.to_nat bytes <= free_space w)%nat ->
      (Z.to_nat bytes <= length buffer)%nat ->
      data = take (Z.to_nat bytes) buffer
      /\ tell (snd (fst r)) = bytes
      /\ fst (fst r) = TRUE).
Proof.
  intros Ha Hrw Hn Hbytes.
  destruct (write_on_fresh_stream w _ this false buffer bytes
              (open_for_write_truncating _ _ Ha Hrw Hn))
    as (H1 & H2 & H3 & H4); [|done|].
  { cbn [nodes set_free_space set_nodes]. apply lookup_insert_eq. }
  cbv zeta. split; [done|]. split; [done|]. split; [done|].
  intros Hroom Hbuf.
  destruct H4 as (H5 & H6 & H7); [cbn [free_space set_free_space]; lia|done|].
  split; [done|]. split; [by rewrite H6|done].
Qed.

(** X7.  After a write of [bytes] bytes in the default mode, on a volume
    with room for them and from a buffer that holds them, [getFileSize]
    of the session's identity is [bytes], and [getExists] is true exactly
    when [bytes] is positive: a write of nothing leaves a store that is
    reported as not existing. *)
Theorem truncating_write_then_size_and_exists
    (w : World) (this : LLFileSystem) (buffer : list byte) (bytes : Z) :
  mMode this <> APPEND ->
  mMode this <> READ_WRITE ->
  (forall n, nodes w !! path_of this <> Some (Directory n)) ->
  0 <= bytes <= INT_MAX ->
  (Z.to_nat bytes <= free_space w)%nat ->
  (Z.to_nat bytes <= length buffer)%nat ->
  let r := write this buffer bytes w in
  fst (getFileSize (mFileID this) (mFileType this) (snd r)) = bytes
  /\ (fst (getExists (mFileID this) (mFileType this) (snd r)) = true
      <-> 0 < bytes).
Proof.
  intros Ha Hrw Hn Hbytes Hroom Hbuf.
  destruct (write_on_fresh_stream w _ this false buffer bytes
              (open_for_write_truncating _ _ Ha Hrw Hn))
    as (H1 & H2 & H3 & H4); [|done|].
  { cbn [nodes set_free_space set_nodes]. apply lookup_insert_eq. }
  destruct H4 as (H5 & _); [cbn [free_space set_free_space]; lia|done|].
  cbv zeta.
  assert (Hs : Z.of_nat (length (content_at (snd (write this buffer bytes w))
                                   (path_of this))) = bytes).
  { rewrite H5, length_take. lia. }
  rewrite getFileSize_value, getExists_value. fold (path_of this).
  rewrite (store_size_regular _ _ _ H1), H1, Hs. split.
  - apply s32_id. unfold is_S32, INT_MIN, INT_MAX in *. lia.
  - apply Z.ltb_lt.
Qed.

(** X8.  Round trip: after a write of the whole buffer in the default
    mode, on a volume with room for it, a session on the same path with
    its cursor at 0 that reads as many bytes gets the buffer back and ends
    with its cursor at the buffer's length; the write reports success,
    and the read does unless the buffer is empty. *)
Theorem write_then_read_round_trip
    (w : World) (this reader : LLFileSystem) (buffer : list byte) :
  mMode this <> APPEND ->
  mMode this <> READ_WRITE ->
  (forall n, nodes w !! path_of this <> Some (Directory n)) ->
  Z.of_nat (length buffer) <= INT_MAX ->
  (length buffer <= free_space w)%nat ->
  path_of reader = path_of this ->
  mPosition reader = 0 ->
  let bytes := Z.of_nat (length buffer) in
  let written := write this buffer bytes w in
  let r := read reader bytes (snd written) in
  fst (fst written) = TRUE
  /\ snd (fst (fst r)) = buffer
  /\ tell (snd (fst r)) = bytes
  /\ (fst (fst (fst r)) = TRUE <-> buffer <> []).
Proof.
  intros Ha Hrw Hn Hlen Hroom Hpath Hzero.
  destruct (write_on_fresh_stream w _ this false buffer
              (Z.of_nat (length buffer))
              (open_for_write_truncating _ _ Ha Hrw Hn))
    as (H1 & H2 & H3 & H4); [|lia|].
  { cbn [nodes set_free_space set_nodes]. apply lookup_insert_eq. }
  rewrite Nat2Z.id in H4.
  destruct H4 as (H5 & _ & H7); [cbn [free_space set_free_space]; lia|done|].
  rewrite firstn_all in H5. rewrite H5 in H1.
  cbv zeta. split; [done|].
  rewrite <- Hpath in H1. rewrite (read_regular _ _ _ _ H1), Hzero.
  change (0 <? 0) with false. cbv zeta.
  rewrite size_t_id by lia. rewrite Nat2Z.id.
  change (Z.to_nat 0) with 0%nat. rewrite drop_0, firstn_all.
  cbn [fst snd]. unfold tell. cbn [mPosition set_mPosition set_mBytesRead].
  rewrite Z.add_0_l.
  assert (Hid : s32 (Z.of_nat (length buffer)) = Z.of_nat (length buffer))
    by (apply s32_id; unfold is_S32, INT_MIN, INT_MAX in *; lia).
  rewrite !Hid.
  repeat split; try done.
  - intros Hb. apply negb_true_iff, Z.eqb_neq in Hb. by intros ->.
  - intros Hb. apply negb_true_iff, Z.eqb_neq.
    destruct buffer; [done|]. cbn [length]. lia.
Qed.

(** ** What a write leaves alone *)

(** X9.  A write, in any mode and whether it succeeds or not, changes no
    node other than the one at the session's own path. *)
Theorem write_touches_only_own_path
    (w : World) (this : LLFileSystem) (buffer : list byte) (bytes : Z)
    (q : string) :
  q <> path_of this ->
  nodes (snd (write this buffer bytes w)) !! q = nodes w !! q.
Proof.
  intros Hq.
  destruct (open_for_write this w) as [[ofs|] w1] eqn:Ho.
  - destruct (open_for_write_some _ _ _ _ Ho) as (Hp & Hframe & c1 & Hn1 & _).
    destruct (write_effect w w1 this ofs buffer c1 bytes Ho Hn1)
      as (_ & _ & -> & _).
    destruct (_ =? 0)%nat.
    + by apply Hframe.
    + rewrite lookup_insert_ne by done. by apply Hframe.
  - destruct (write_unopened _ _ this buffer bytes Ho) as (-> & Hnodes & _).
    cbn [snd]. by rewrite Hnodes.
Qed.

(** X10.  Appends compose: on a store holding [C] and a volume with room
    for [B1] and [B2], two writes in [APPEND] mode of [B1] and then [B2]
    both succeed and leave [C ++ B1 ++ B2], within [getMaxSize] bytes. *)
Theorem append_twice
    (w : World) (this : LLFileSystem) (C B1 B2 : list byte) :
  mMode this = APPEND ->
  nodes w !! path_of this = Some (RegularFile C) ->
  Z.of_nat (length (C ++ B1 ++ B2)) <= getMaxSize ->
  (length B1 + length B2 <= free_space w)%nat ->
  let r1 := write this B1 (Z.of_nat (length B1)) w in
  let r2 := write (snd (fst r1)) B2 (Z.of_nat (length B2)) (snd r1) in
  fst (fst r1) = TRUE
  /\ fst (fst r2) = TRUE
  /\ nodes (snd r2) !! path_of this = Some (RegularFile (C ++ B1 ++ B2)).
Proof.
  intros Hm Hn Hfits Hroom r1 r2.
  rewrite !length_app in Hfits.
  destruct (append_any_cursor w this C B1 Hm Hn) as (Hs1 & Hc1 & _ & Hf1);
    [rewrite length_app; lia|lia|].
  fold r1 in Hs1, Hc1, Hf1.
  pose proof (write_keeps_identity w this B1 (Z.of_nat (length B1)))
    as (Hid & Hty & Hmode & _).
  fold r1 in Hid, Hty, Hmode.
  assert (Hpath : path_of (snd (fst r1)) = path_of this).
  { unfold path_of. by rewrite Hid, Hty. }
  destruct (append_any_cursor (snd r1) (snd (fst r1)) (C ++ B1) B2)
    as (Hs2 & Hc2 & _); try done.
  { by rewrite Hmode. }
  { by rewrite Hpath. }
  { rewrite !length_app. lia. }
  { rewrite Hf1. lia. }
  fold r2 in Hs2, Hc2. rewrite Hpath, <- app_assoc in Hc2. done.
Qed.

(** ** Rename and remove, and what follows them *)

(** The effect of [renameFile] when the old store is a regular file, the
    two paths differ and no directory is in the way. *)
Lemma renameFile_moves (w : World) (old_file_id : LLUUID) (old_file_type : EType)
    (new_file_id : LLUUID) (new_file_type : EType) (c : list byte) :
  let old_filename := filename_of old_file_id old_file_type in
  let new_filename := filename_of new_file_id new_file_type in
  nodes w !! old_filename = Some (RegularFile c) ->
  old_filename <> new_filename ->
  (forall n, nodes w !! new_filename <> Some (Directory n)) ->
  let r := renameFile old_file_id old_file_type new_file_id new_file_type w in
  fst r = TRUE
  /\ nodes (snd r) !! new_filename = Some (RegularFile c)
  /\ nodes (snd r) !! old_filename = None
  /\ (forall q, q <> old_filename -> q <> new_filename ->
      nodes (snd r) !! q = nodes w !! q)
  /\ llwarns (snd r) = llwarns w.
Proof.
  intros old_filename new_filename Hold Hne Hnodir. cbv zeta.
  unfold renameFile, removeFile, LLFile_remove, LLFile_rename. os_unfold.
  change (metaDataToFilepath (toString new_file_id) new_file_type "")
    with new_filename.
  fold old_filename. fold new_filename.
  assert (Heqb : (old_filename =? new_filename)%string = false)
    by (by apply String.eqb_neq).
  destruct (nodes w !! new_filename) as [[c'|n]|] eqn:Hnew.
  - cbn [fst snd nodes set_nodes set_free_space].
    rewrite lookup_delete_ne by done. rewrite Hold, lookup_delete_eq, Heqb.
    cbn [fst snd negb nodes set_nodes set_free_space llwarns].
    change (0 =? 0) with true. cbn [negb fst snd nodes set_nodes
      set_free_space llwarns].
    rewrite lookup_insert_eq, lookup_insert_ne, lookup_delete_eq by done.
    repeat split; try done.
    intros q Hq1 Hq2. by rewrite lookup_insert_ne, !lookup_delete_ne.
  - by destruct (Hnodir n).
  - change (ENOENT =? ENOENT) with true.
    cbn [fst snd nodes set_nodes set_free_space set_errno].
    rewrite Hold, Hnew, Heqb.
    cbn [fst snd negb nodes set_nodes set_free_space set_errno llwarns].
    change (0 =? 0) with true. cbn [negb fst snd nodes set_nodes
      set_free_space set_errno llwarns].
    rewrite lookup_insert_eq, lookup_insert_ne, lookup_delete_eq by done.
    repeat split; try done.
    intros q Hq1 Hq2. by rewrite lookup_insert_ne, lookup_delete_ne.
Qed.

(** X11.  [renameFile] between two different paths, when the old store is a
    regular file and no directory sits at the destination, moves the bytes:
    the destination holds what the old store held (whatever it held
    before), nothing is left at the old path, no other path changes and no
    warning is logged. *)
Theorem renameFile_moves_the_store
    (w : World) (old_file_id : LLUUID) (old_file_type : EType)
    (new_file_id : LLUUID) (new_file_type : EType) (c : list byte) :
  let old_filename := filename_of old_file_id old_file_type in
  let new_filename := filename_of new_file_id new_file_type in
  nodes w !! old_filename = Some (RegularFile c) ->
  old_filename <> new_filename ->
  (forall n, nodes w !! new_filename <> Some (Directory n)) ->
  let r := renameFile old_file_id old_file_type new_file_id new_file_type w in
  nodes (snd r) !! new_filename = Some (RegularFile c)
  /\ nodes (snd r) !! old_filename = None
  /\ (forall q, q <> old_filename -> q <> new_filename ->
      nodes (snd r) !! q = nodes w !! q)
  /\ llwarns (snd r) = llwarns w.
Proof.
  intros old_filename new_filename Hold Hne Hnodir.
  by destruct (renameFile_moves w old_file_id old_file_type new_file_id
                 new_file_type c Hold Hne Hnodir) as (_ & H).
Qed.

(** X12.  [renameFile] onto the store's own path loses the store: the
    destination is removed first, which is the store itself, the rename
    then finds nothing to move, and the call still reports success, with
    one warning logged. *)
Theorem renameFile_onto_itself_loses_the_store
    (w : World) (old_file_id : LLUUID) (old_file_type : EType)
    (new_file_id : LLUUID) (new_file_type : EType) (c : list byte) :
  let filename := filename_of old_file_id old_file_type in
  filename_of new_file_id new_file_type = filename ->
  nodes w !! filename = Some (RegularFile c) ->
  let r := renameFile old_file_id old_file_type new_file_id new_file_type w in
  fst r = TRUE
  /\ nodes (snd r) = delete filename (nodes w)
  /\ llwarns (snd r)
     = llwarns w ++ [FailedToRename (toString old_file_id)
                       (toString new_file_id) ENOENT].
Proof.
  intros filename Hsame Hn. cbv zeta.
  unfold renameFile, removeFile, LLFile_remove, LLFile_rename. os_unfold.
  change (metaDataToFilepath (toString new_file_id) new_file_type "")
    with (filename_of new_file_id new_file_type).
  rewrite Hsame. fold filename. rewrite Hn.
  cbn [fst snd nodes set_nodes set_free_space].
  rewrite lookup_delete_eq.
  cbn [fst snd nodes set_nodes set_free_space set_errno].
  change (-1 =? 0) with false.
  by cbn [negb fst snd nodes set_nodes set_free_space set_errno llwarns
            add_llwarn errno].
Qed.

(** X13.  The instance method [remove] on a store that is a regular file
    deletes it, reports success and leaves the session as it was: the
    cursor is not reset, while the size of the store is now 0 and
    [getExists] is false. *)
Theorem remove_keeps_the_cursor
    (w : World) (this : LLFileSystem) (c : list byte) :
  nodes w !! path_of this = Some (RegularFile c) ->
  let r := remove this w in
  fst r = (TRUE, this)
  /\ nodes (snd r) = delete (path_of this) (nodes w)
  /\ llwarns (snd r) = llwarns w
  /\ fst (getSize this (snd r)) = 0
  /\ fst (getExists (mFileID this) (mFileType this) (snd r)) = false.
Proof.
  intros Hn. cbv zeta.
  assert (Hr : remove this w
               = ((TRUE, this),
                  set_free_space (free_space w + length c)
                    (set_nodes (delete (path_of this) (nodes w)) w))).
  { unfold remove, removeFile, LLFile_remove. os_unfold.
    fold (path_of this). by rewrite Hn. }
  rewrite Hr. cbn [fst snd nodes set_nodes set_free_space llwarns].
  split; [done|]. split; [done|]. split; [done|].
  unfold getSize. rewrite getFileSize_value, getExists_value.
  fold (path_of this). unfold store_size.
  cbn [nodes set_nodes set_free_space]. by rewrite lookup_delete_eq.
Qed.

(** X14.  Renaming a session onto another identity and reading through it
    gives what reading before the rename would have given: the same
    result, the same bytes and the same cursor.  The store is a regular
    file, the new path differs from the old and no directory sits there. *)
Theorem rename_then_read_same_bytes
    (w : World) (this : LLFileSystem) (new_id : LLUUID) (new_type : EType)
    (bytes : Z) (c : list byte) :
  nodes w !! path_of this = Some (RegularFile c) ->
  path_of this <> filename_of new_id new_type ->
  (forall n, nodes w !! filename_of new_id new_type <> Some (Directory n)) ->
  let renamed := rename this new_id new_type w in
  let r1 := read (snd (fst renamed)) bytes (snd renamed) in
  let r0 := read this bytes w in
  fst (fst r1) = fst (fst r0)
  /\ tell (snd (fst r1)) = tell (snd (fst r0)).
Proof.
  intros Hn Hne Hnodir. cbv zeta.
  destruct (renameFile_moves w (mFileID this) (mFileType this) new_id
              new_type c Hn Hne Hnodir) as (_ & Hnew & _).
  unfold rename. os_unfold.
  destruct (renameFile (mFileID this) (mFileType this) new_id new_type w)
    as [b w']. cbn [fst snd] in *.
  rewrite (read_regular w' (set_identity new_id new_type this) bytes c)
    by exact Hnew.
  rewrite (read_regular _ _ _ _ Hn).
  cbn [mPosition set_identity].
  by destruct (mPosition this <? 0).
Qed.

(** ** Reads in sequence *)

Lemma take_then_take (l : list byte) (a b : nat) :
  take a l ++ take b (drop (length (take a l)) l) = take (a + b) l.
Proof.
  destruct (decide (a <= length l)%nat).
  - rewrite length_take, Nat.min_l by done. apply take_take_drop.
  - rewrite !(take_ge l) by lia. rewrite drop_all, take_nil.
    apply app_nil_r.
Qed.

(** X15.  Two reads in a row obtain together what one read of the summed
    count obtains, and leave the cursor where that one read leaves it.
    The store is a regular file within [getMaxSize] bytes, the cursor a
    non-negative [S32]. *)
Theorem consecutive_reads_concatenate
    (w : World) (this : LLFileSystem) (a b : Z) (c : list byte) :
  nodes w !! path_of this = Some (RegularFile c) ->
  Z.of_nat (length c) <= getMaxSize ->
  0 <= mPosition this <= INT_MAX ->
  0 <= a -> 0 <= b -> a + b <= INT_MAX ->
  let r1 := read this a w in
  let r2 := read (snd (fst r1)) b (snd r1) in
  let r := read this (a + b) w in
  snd (fst (fst r1)) ++ snd (fst (fst r2)) = snd (fst (fst r))
  /\ tell (snd (fst r2)) = tell (snd (fst r)).
Proof.
  intros Hn Hfits Hpos Ha Hb Hab. cbv zeta.
  unfold getMaxSize, INT_MAX in *.
  rewrite (read_regular w this a c Hn), (read_regular w this (a + b) c Hn).
  assert ((mPosition this <? 0) = false) as -> by (apply Z.ltb_ge; lia).
  cbv zeta. rewrite !size_t_id by (unfold INT_MAX; lia).
  set (l := drop (Z.to_nat (mPosition this)) c).
  assert (Hl : length l = (length c - Z.to_nat (mPosition this))%nat)
    by (subst l; apply length_drop).
  set (d1 := take (Z.to_nat a) l).
  assert (Hd1 : (length d1 <= length l)%nat)
    by (subst d1; rewrite length_take; lia).
  assert (Hs1 : s32 (Z.of_nat (length d1)) = Z.of_nat (length d1))
    by (apply s32_id; unfold is_S32, INT_MIN, INT_MAX; lia).
  assert (Hp1 : s32 (mPosition this + Z.of_nat (length d1))
                = mPosition this + Z.of_nat (length d1))
    by (apply s32_id; unfold is_S32, INT_MIN, INT_MAX; lia).
  cbn [fst snd]. rewrite Hs1, Hp1.
  rewrite (read_regular w _ b c) by exact Hn.
  cbn [mPosition set_mPosition set_mBytesRead].
  assert ((mPosition this + Z.of_nat (length d1) <? 0) = false) as ->
    by (apply Z.ltb_ge; lia).
  cbv zeta. rewrite size_t_id by (unfold INT_MAX; lia).
  replace (drop (Z.to_nat (mPosition this + Z.of_nat (length d1))) c)
    with (drop (length d1) l).
  2:{ subst l. rewrite drop_drop. f_equal. lia. }
  set (d2 := take (Z.to_nat b) (drop (length d1) l)).
  assert (Hcat : d1 ++ d2 = take (Z.to_nat (a + b)) l).
  { subst d1 d2. rewrite take_then_take. f_equal. lia. }
  assert (Hd2 : (length d1 + length d2 <= length l)%nat).
  { rewrite <- length_app, Hcat, length_take. lia. }
  cbn [fst snd]. split; [done|].
  unfold tell. cbn [mPosition set_mPosition set_mBytesRead].
  rewrite <- Hcat, length_app.
  rewrite (s32_id (Z.of_nat (length d2)))
    by (unfold is_S32, INT_MIN, INT_MAX; lia).
  rewrite (s32_id (Z.of_nat (length d1 + length d2)))
    by (unfold is_S32, INT_MIN, INT_MAX; lia).
  rewrite !s32_id by (unfold is_S32, INT_MIN, INT_MAX; lia). lia.
Qed.

(** ** Queries change no store *)

Lemma read_world (w : World) (this : LLFileSystem) (bytes : Z) :
  snd (read this bytes w) = w
  \/ exists e, snd (read this bytes w) = set_errno e w.
Proof.
  destruct (nodes w !! path_of this) as [[c|n]|] eqn:Hn.
  - rewrite (read_regular _ _ _ _ Hn).
    destruct (mPosition this <? 0); cbn [snd]; eauto.
  - right. exists EISDIR. unfold read, LLFile_fopen, fopen. os_unfold.
    fold (path_of this). cbn [String.eqb Ascii.eqb Bool.eqb orb].
    by rewrite Hn.
  - right. exists ENOENT. unfold read, LLFile_fopen, fopen. os_unfold.
    fold (path_of this). cbn [String.eqb Ascii.eqb Bool.eqb orb].
    by rewrite Hn.
Qed.

(** X16.  [read], [seek] and [eof] change no store: the nodes of the
    volume, its free space and the access-time record are after the call
    what they were before. *)
Theorem queries_change_no_store
    (w : World) (this : LLFileSystem) (bytes offset origin : Z) :
  (nodes (snd (read this bytes w)) = nodes w
   /\ free_space (snd (read this bytes w)) = free_space w
   /\ touched (snd (read this bytes w)) = touched w)
  /\ (nodes (snd (seek this offset origin w)) = nodes w
      /\ free_space (snd (seek this offset origin w)) = free_space w
      /\ touched (snd (seek this offset origin w)) = touched w)
  /\ (nodes (snd (eof this w)) = nodes w
      /\ free_space (snd (eof this w)) = free_space w
      /\ touched (snd (eof this w)) = touched w).
Proof.
  pose proof (getFileSize_world w (mFileID this) (mFileType this))
    as (Hnodes & Hfree & _ & Htouched).
  split; [|split].
  - by destruct (read_world w this bytes) as [->|[e ->]].
  - unfold seek, getSize. os_unfold.
    destruct (getFileSize (mFileID this) (mFileType this) w) as [sz w'].
    cbn [snd] in *. by repeat case_match.
  - unfold eof, getSize. os_unfold.
    by destruct (getFileSize (mFileID this) (mFileType this) w) as [sz w'].
Qed.

(** ** Seeks in sequence *)

Lemma s32_add_s32 (x y : Z) : s32 (s32 x + y) = s32 (x + y).
Proof.
  unfold s32. f_equal.
  replace ((x + 2 ^ 31) mod 2 ^ 32 - 2 ^ 31 + y + 2 ^ 31)
    with ((x + 2 ^ 31) mod 2 ^ 32 + y) by lia.
  rewrite Z.add_mod_idemp_l by lia. f_equal. lia.
Qed.

Lemma seek_value (w : World) (this : LLFileSystem) (offset origin : Z) :
  let size := s32 (store_size w (path_of this)) in
  let new_pos := s32 ((if -1 =? origin then mPosition this else origin)
                      + offset) in
  fst (seek this offset origin w)
  = if size <? new_pos then (FALSE, set_mPosition size this)
    else if new_pos <? 0 then (FALSE, set_mPosition 0 this)
    else (TRUE, set_mPosition new_pos this).
Proof.
  cbv zeta. unfold seek, getSize. os_unfold.
  pose proof (getFileSize_value w (mFileID this) (mFileType this)) as Hv.
  fold (path_of this) in Hv.
  destruct (getFileSize (mFileID this) (mFileType this) w) as [sz w'].
  cbn [fst] in Hv. subst sz.
  by repeat (case_match; try done).
Qed.

(** X17.  Relative seeks compose: when a seek by [a] from the cursor and
    then a seek by [b] from the new cursor both succeed, one seek by
    [a + b] from the original cursor succeeds too and arrives at the same
    session state. *)
Theorem relative_seeks_compose
    (w : World) (this : LLFileSystem) (a b : Z) :
  let r1 := seek this a (-1) w in
  let r2 := seek (snd (fst r1)) b (-1) (snd r1) in
  fst (fst r1) = TRUE ->
  fst (fst r2) = TRUE ->
  fst (seek this (a + b) (-1) w) = (TRUE, snd (fst r2)).
Proof.
  intros r1 r2.
  pose proof (seek_keeps_identity w this a (-1)) as (Hp & _ & Hnodes).
  fold r1 in Hp, Hnodes.
  assert (Hsize : store_size (snd r1) (path_of (snd (fst r1)))
                  = store_size w (path_of this)).
  { rewrite Hp. by apply store_size_same_nodes. }
  subst r2. rewrite (seek_value (snd r1)), Hsize.
  subst r1. rewrite !seek_value.
  change (-1 =? -1) with true. cbv beta iota zeta.
  set (size := s32 (store_size w (path_of this))).
  destruct (size <? s32 (mPosition this + a)) eqn:H1; [done|].
  destruct (s32 (mPosition this + a) <? 0) eqn:H2; [done|].
  cbn [fst snd mPosition set_mPosition]. intros _.
  rewrite s32_add_s32, Z.add_assoc.
  destruct (size <? s32 (mPosition this + a + b)) eqn:H3; [done|].
  destruct (s32 (mPosition this + a + b) <? 0) eqn:H4; [done|].
  done.
Qed.

(** ** Seeking beyond the end, and appending to a missing store *)

(** X18.  A seek whose target lies beyond the size of the store leaves the
    session at the end of the store: [eof] is true afterwards. *)
Theorem seek_past_end_reaches_eof
    (w : World) (this : LLFileSystem) (offset origin : Z) :
  fst (getSize this w)
    < s32 ((if -1 =? origin then mPosition this else origin) + offset) ->
  let r := seek this offset origin w in
  fst (fst r) = FALSE
  /\ fst (eof (snd (fst r)) (snd r)) = true.
Proof.
  intros Hpast. cbv zeta.
  pose proof (seek_keeps_identity w this offset origin) as (Hp & _ & Hnodes).
  pose proof (seek_value w this offset origin) as Hv. cbv zeta in Hv.
  unfold getSize in Hpast. rewrite getFileSize_value in Hpast.
  fold (path_of this) in Hpast. apply Z.ltb_lt in Hpast.
  rewrite Hpast in Hv.
  rewrite eof_value, Hp, (store_size_same_nodes _ _ _ Hnodes).
  destruct (seek this offset origin w) as [[b this'] w'].
  cbn [fst snd] in *. injection Hv as -> ->.
  split; [done|]. cbn [mPosition set_mPosition]. apply Z.leb_refl.
Qed.

(** X19.  In [APPEND] mode, when the store does not exist, the write
    creates it: the store then holds a prefix of the buffer of at most
    [bytes] bytes; when the volume has room for [bytes] bytes and the
    buffer holds them, the store holds exactly the first [bytes] bytes of
    the buffer, the cursor is [bytes] and the call reports success. *)
Theorem append_creates_missing_store
    (w : World) (this : LLFileSystem) (buffer : list byte) (bytes : Z) :
  mMode this = APPEND ->
  nodes w !! path_of this = None ->
  0 <= bytes <= INT_MAX ->
  let r := write this buffer bytes w in
  let data := content_at (snd r) (path_of this) in
  nodes (snd r) !! path_of this = Some (RegularFile data)
  /\ data = take (length data) buffer
  /\ (length data <= Z.to_nat bytes)%nat
  /\ ((Z.to_nat bytes <= free_space w)%nat ->
      (Z.to_nat bytes <= length buffer)%nat ->
      data = take (Z.to_nat bytes) buffer
      /\ tell (snd (fst r)) = bytes
      /\ fst (fst r) = TRUE).
Proof.
  intros Hm Hn Hbytes.
  assert (Ho : open_for_write this w
               = (Some (mkFILE (path_of this) 0 true []),
                  set_free_space (free_space w + 0)
                    (set_nodes (<[path_of this := RegularFile []]> (nodes w))
                       w))).
  { unfold open_for_write. rewrite Hm. change (APPEND =? APPEND) with true.
    cbv beta iota zeta. fold (path_of this).
    by rewrite (fopen_append_absent _ _ Hn). }
  destruct (write_on_fresh_stream w _ this true buffer bytes Ho)
    as (H1 & H2 & H3 & H4); [|done|].
  { cbn [nodes set_free_space set_nodes]. apply lookup_insert_eq. }
  cbv zeta. split; [done|]. split; [done|]. split; [done|].
  intros Hroom Hbuf.
  destruct H4 as (H5 & H6 & H7); [cbn [free_space set_free_space]; lia|done|].
  split; [done|]. split; [by rewrite H6|done].
Qed.

End Properties.

(** * The accessor on the test double *)

(** ** The scenarios of the specification *)

(** Nothing was ever written: the store does not exist and has size 0. *)
Example never_written :
  fst (getExists "A" Demo.AT_TEXTURE Demo.w_blank) = false
  /\ fst (getFileSize "A" Demo.AT_TEXTURE Demo.w_blank) = 0.
Proof. by vm_compute. Qed.

(** Write ["0123456789"] in mode [WRITE]; the size is 10; reading 5 bytes
    from cursor 0 gives ["01234"], success, and a cursor of 5. *)
Example write_then_read :
  let written :=
    write (Demo.session "A" 0 WRITE) (Demo.bytes_of "0123456789") 10 Demo.w_blank in
  let r := read (Demo.session "A" 0 READ) 5 (snd written) in
  fst (fst written) = true
  /\ fst (getFileSize "A" Demo.AT_TEXTURE (snd written)) = 10
  /\ fst (fst (fst r)) = true
  /\ snd (fst (fst r)) = Demo.bytes_of "01234"
  /\ tell (snd (fst r)) = 5.
Proof. by vm_compute. Qed.

(** Appending ["abc"] to ["foo"] gives ["fooabc"] and a cursor of 6. *)
Example append_abc :
  let r := write (Demo.session "A" 0 APPEND) (Demo.bytes_of "abc") 3 Demo.w_foo in
  fst (fst r) = true
  /\ nodes (snd r) !! Demo.path_A = Some (RegularFile (Demo.bytes_of "fooabc"))
  /\ tell (snd (fst r)) = 6.
Proof. by vm_compute. Qed.

(** Removing an absent store with [ENOENT] marked as expected reports
    success and logs nothing; without the mark a warning is logged. *)
Example remove_absent :
  let r := removeFile "A" Demo.AT_TEXTURE ENOENT Demo.w_blank in
  let r0 := removeFile "A" Demo.AT_TEXTURE 0 Demo.w_blank in
  fst r = true /\ llwarns (snd r) = []
  /\ fst r0 = true /\ llwarns (snd r0) = [Couldnt "remove" Demo.path_A ENOENT].
Proof. by vm_compute. Qed.

(** Renaming ["A"] (holding ["x"]) over ["B"] (holding ["y"]) leaves ["x"]
    at ["B"] and nothing at ["A"]. *)
Example rename_over_existing :
  let r := renameFile "A" Demo.AT_TEXTURE "B" Demo.AT_TEXTURE Demo.w_xy in
  fst r = true
  /\ nodes (snd r) !! Demo.path_B = Some (RegularFile (Demo.bytes_of "x"))
  /\ nodes (snd r) !! Demo.path_A = None
  /\ llwarns (snd r) = [].
Proof. by vm_compute. Qed.

(** Renaming a store that is not there fails in the operating system, is
    logged, and is still reported as a success; the destination is gone
    all the same. *)
Example rename_failure_reported_as_success :
  let w := Demo.w_xy in
  let r := renameFile "C" Demo.AT_TEXTURE "B" Demo.AT_TEXTURE w in
  fst (LLFile_rename (Demo.filepath "C" Demo.AT_TEXTURE "") Demo.path_B
         (snd (removeFile "B" Demo.AT_TEXTURE ENOENT w))) = -1
  /\ fst r = true
  /\ nodes (snd r) !! Demo.path_B = None
  /\ llwarns (snd r) = [FailedToRename "C" "B" ENOENT].
Proof. by vm_compute. Qed.

(** A removal that the operating system refuses is reported as a success
    too. *)
Example remove_failure_reported_as_success :
  let r := removeFile "A" Demo.AT_TEXTURE 0 Demo.w_dir in
  fst (LLFile_remove Demo.path_A 0 Demo.w_dir) = -1
  /\ fst r = true
  /\ nodes (snd r) !! Demo.path_A = Some (Directory 4096)
  /\ llwarns (snd r) = [Couldnt "remove" Demo.path_A ENOTEMPTY].
Proof. by vm_compute. Qed.

(** A session renamed onto a new identity reads from the new path, also
    when nothing was moved there. *)
Example rename_then_read :
  let renamed := rename (Demo.session "C" 0 READ) "B" Demo.AT_TEXTURE Demo.w_foo in
  let r := read (snd (fst renamed)) 3 (snd renamed) in
  nodes (snd renamed) !! Demo.path_A = Some (RegularFile (Demo.bytes_of "foo"))
  /\ nodes (snd renamed) !! Demo.path_B = None
  /\ path_of (snd (fst renamed)) = Demo.path_B
  /\ fst (fst (fst r)) = false.
Proof. by vm_compute. Qed.

(** A short read near the end of the store is a success. *)
Example short_read_succeeds :
  let r := read (Demo.session "A" 2 READ) 5 Demo.w_foo in
  fst (fst r) = (true, Demo.bytes_of "o")
  /\ tell (snd (fst r)) = 3
  /\ getLastBytesRead (snd (fst r)) = 1.
Proof. by vm_compute. Qed.

(** A write that fits into the stream buffer is accepted in full: on a
    volume with room for two of its three bytes it is reported as a
    success, the cursor counts all three, and two reach the store when
    the stream is closed. *)
Example short_write_reported_as_success :
  let r := write (Demo.session "A" 0 APPEND) (Demo.bytes_of "abc") 3 Demo.w_foo_tight in
  fst (fst r) = true
  /\ nodes (snd r) !! Demo.path_A = Some (RegularFile (Demo.bytes_of "fooab"))
  /\ tell (snd (fst r)) = 6
  /\ errno (snd r) = ENOSPC.
Proof. by vm_compute. Qed.

(** A write of a whole block bypasses the buffer; cut short by a full
    volume it is a failure, and the cursor counts what was stored. *)
Example short_block_write_fails :
  let r := write (Demo.session "A" 0 APPEND) (replicate Demo.BUFSIZ x00)
             (Z.of_nat Demo.BUFSIZ) Demo.w_foo_tight in
  fst (fst r) = false
  /\ nodes (snd r) !! Demo.path_A
     = Some (RegularFile (Demo.bytes_of "foo" ++ [x00; x00]))
  /\ tell (snd (fst r)) = 5.
Proof. by vm_compute. Qed.

(** In mode [READ_WRITE] two bytes written at cursor 1 of ["foo"] replace
    its last two bytes; written at cursor 2 they replace one byte and add
    one. *)
Example update_in_place :
  let r1 := write (Demo.session "A" 1 READ_WRITE) (Demo.bytes_of "XY") 2 Demo.w_foo in
  let r2 := write (Demo.session "A" 2 READ_WRITE) (Demo.bytes_of "XY") 2 Demo.w_foo in
  fst (fst r1) = true
  /\ nodes (snd r1) !! Demo.path_A = Some (RegularFile (Demo.bytes_of "fXY"))
  /\ tell (snd (fst r1)) = 3
  /\ fst (fst r2) = true
  /\ nodes (snd r2) !! Demo.path_A = Some (RegularFile (Demo.bytes_of "foXY"))
  /\ tell (snd (fst r2)) = 4.
Proof. by vm_compute. Qed.

(** Seeking beyond the end or before the start is refused and clamped. *)
Example seek_clamp :
  fst (seek (Demo.session "A" 1 READ) (3 + 4) 0 Demo.w_foo)
  = (false, Demo.session "A" 3 READ)
  /\ fst (seek (Demo.session "A" 1 READ) (-4) 0 Demo.w_foo)
     = (false, Demo.session "A" 0 READ)
  /\ fst (seek (Demo.session "A" 1 READ) 1 (-1) Demo.w_foo)
     = (true, Demo.session "A" 2 READ).
Proof. by vm_compute. Qed.

(** ** The theorems at concrete inputs *)

(** [removeFile_renameFile_always_succeed] on a volume where the
    destination is absent. *)
Lemma removeFile_renameFile_witness :
  nodes Demo.w_foo !! Demo.path_B = None
  /\ llwarns (snd (removeFile "B" Demo.AT_TEXTURE ENOENT Demo.w_foo))
     = llwarns Demo.w_foo.
Proof.
  assert (Habsent : nodes Demo.w_foo !! Demo.path_B = None) by (by vm_compute).
  split; [exact Habsent|].
  exact (proj2 (proj2 (proj2
    (removeFile_renameFile_always_succeed Demo.w_foo "A" Demo.AT_TEXTURE "B"
       Demo.AT_TEXTURE 0))) Habsent).
Defined.

(** [read_succeeds_iff_bytes_obtained] on a short read: 5 bytes asked for
    at cursor 2 of a 3-byte store. *)
Lemma read_succeeds_witness :
  let this := Demo.session "A" 2 READ in
  let r := read this 5 Demo.w_foo in
  fst (LLFile_fopen (path_of this) "rb" Demo.w_foo)
  = Some (mkFILE Demo.path_A 0 false [])
  /\ is_S32 2
  /\ store_size Demo.w_foo (path_of this) <= getMaxSize
  /\ (fst (fst (fst r)) = true <-> (1 <= length (snd (fst (fst r))))%nat)
  /\ (fst (fst (fst r)) = true ->
      tell (snd (fst r)) = tell this + Z.of_nat (length (snd (fst (fst r))))
      /\ getLastBytesRead (snd (fst r)) = Z.of_nat (length (snd (fst (fst r)))))
  /\ (0 <= 2 ->
      snd (fst (fst r))
      = take (Z.to_nat (size_t 5))
          (drop (Z.to_nat 2) (content_at Demo.w_foo (path_of this)))).
Proof.
  intros this r.
  assert (Hopen : fst (LLFile_fopen (path_of this) "rb" Demo.w_foo)
                  = Some (mkFILE Demo.path_A 0 false [])) by (by vm_compute).
  assert (Hpos : is_S32 2) by (by vm_compute).
  assert (Hfits : store_size Demo.w_foo (path_of this) <= getMaxSize)
    by (by vm_compute).
  split; [exact Hopen|]. split; [exact Hpos|]. split; [exact Hfits|].
  exact (read_succeeds_iff_bytes_obtained Demo.w_foo this 5 _ Hopen Hpos Hfits).
Defined.


(** [append_after_any_seek]: ["abc"] appended to ["foo"] after a seek to
    offset 1. *)
Lemma append_after_any_seek_witness :
  let this := Demo.session "A" 0 APPEND in
  let C := Demo.bytes_of "foo" in
  let B := Demo.bytes_of "abc" in
  let sought := seek this 1 0 Demo.w_foo in
  let r := write (snd (fst sought)) B (Z.of_nat (length B)) (snd sought) in
  mMode this = APPEND
  /\ nodes Demo.w_foo !! path_of this = Some (RegularFile C)
  /\ Z.of_nat (length (C ++ B)) <= getMaxSize
  /\ (length B <= free_space Demo.w_foo)%nat
  /\ nodes (snd r) !! path_of this
     = Some (RegularFile
               (C ++ take (stored_total (snd r) - stored_total (snd sought)) B))
  /\ fst (fst r) = true
  /\ nodes (snd r) !! path_of this = Some (RegularFile (C ++ B))
  /\ (B <> [] ->
      tell (snd (fst r)) = Z.of_nat (length (C ++ B))
      /\ fst (getSize (snd (fst r)) (snd r)) = tell (snd (fst r))).
Proof.
  intros this C B sought r.
  assert (Hm : mMode this = APPEND) by reflexivity.
  assert (Hn : nodes Demo.w_foo !! path_of this = Some (RegularFile C))
    by (by vm_compute).
  assert (Hfits : Z.of_nat (length (C ++ B)) <= getMaxSize) by (by vm_compute).
  assert (Hroom : (length B <= free_space Demo.w_foo)%nat)
    by (vm_compute; lia).
  split; [exact Hm|]. split; [exact Hn|]. split; [exact Hfits|].
  split; [exact Hroom|].
  split; [exact (proj1 (append_after_any_seek Demo.w_foo this C B 1 0
                          Hm Hn Hfits))|].
  exact (proj2 (append_after_any_seek Demo.w_foo this C B 1 0 Hm Hn Hfits)
           Hroom).
Defined.

(** [seek_clamps_cursor] on a seek beyond the end of a 3-byte store. *)
Lemma seek_clamps_witness :
  let this := Demo.session "A" 1 READ in
  let size := fst (getSize this Demo.w_foo) in
  let target := s32 (0 + 7) in
  let r := fst (seek this 7 0 Demo.w_foo) in
  (0 = 0 \/ 0 = -1)
  /\ 0 <= size
  /\ (is_S32 (0 + 7) -> target = 0 + 7)
  /\ (size < target -> r = (false, set_mPosition size this))
  /\ (target < 0 -> r = (false, set_mPosition 0 this))
  /\ (0 <= target <= size -> r = (true, set_mPosition target this)).
Proof.
  intros this size target r.
  assert (Horigin : 0 = 0 \/ 0 = -1) by (by left).
  assert (Hsize : 0 <= size) by (by vm_compute).
  split; [exact Horigin|]. split; [exact Hsize|].
  exact (seek_clamps_cursor Demo.w_foo this 7 0 Horigin Hsize).
Defined.


(** [getExists_iff_nonempty_regular_file] on a store of length zero. *)
Lemma getExists_witness :
  nodes Demo.w_empty_store !! Demo.path_A = Some (RegularFile [])
  /\ fst (getExists "A" Demo.AT_TEXTURE Demo.w_empty_store) = false
  /\ fst (fst (LLFile_stat Demo.path_A Demo.w_empty_store)) = 0
  /\ fst (getFileSize "A" Demo.AT_TEXTURE Demo.w_empty_store) = 0.
Proof.
  assert (Hn : nodes Demo.w_empty_store !! Demo.path_A = Some (RegularFile []))
    by (by vm_compute).
  split; [exact Hn|].
  exact (proj2 (getExists_iff_nonempty_regular_file Demo.w_empty_store
                  "A" Demo.AT_TEXTURE) Hn).
Defined.

(** [read_unopenable_store] on a volume without the store. *)
Lemma read_unopenable_witness :
  let this := Demo.session "A" 2 READ in
  fst (LLFile_fopen (path_of this) "rb" Demo.w_blank) = None
  /\ fst (read this 5 Demo.w_blank) = (false, [], this)
  /\ tell (snd (fst (read this 5 Demo.w_blank))) = tell this.
Proof.
  intros this.
  assert (Hopen : fst (LLFile_fopen (path_of this) "rb" Demo.w_blank) = None)
    by (by vm_compute).
  split; [exact Hopen|].
  exact (read_unopenable_store Demo.w_blank this 5 Hopen).
Defined.

(** ** Where the claims as stated fail *)

(** C2.  The claim fails on the code.  On a volume with room for two more
    bytes, a session constructed in [APPEND] mode on the store holding
    ["foo"] writes ["abc"]: the stream accepts the three bytes, the call
    reports success and the cursor becomes 6, but only two bytes reach the
    store when the stream is closed, so the store has 5 bytes and the
    cursor lies beyond its size. *)
Theorem cursor_beyond_store_on_full_volume :
  let st0 := LLFileSystem_new "A" Demo.AT_TEXTURE APPEND Demo.w_foo_tight in
  let r := write (fst st0) (Demo.bytes_of "abc") 3 (snd st0) in
  fst (fst r) = true
  /\ nodes (snd r) !! Demo.path_A = Some (RegularFile (Demo.bytes_of "fooab"))
  /\ tell (snd (fst r)) = 6
  /\ fst (getSize (snd (fst r)) (snd r)) = 5
  /\ ~ (0 <= tell (snd (fst r)) <= fst (getSize (snd (fst r)) (snd r))).
Proof.
  cbv zeta. repeat split; try (by vm_compute).
  intros [_ H]. by vm_compute in H.
Qed.


(** C5 as stated fails.  Appending no bytes to a store holding ["foo"]
    succeeds and leaves ["foo"], but the appending stream was never moved
    from offset 0, so the cursor becomes 0 and not the end of the store.
    And appending ["abc"] on a volume with room for two bytes leaves
    ["fooab"], not ["fooabc"], with the cursor at 6, beyond the end of the
    store. *)
Lemma append_of_nothing_and_without_room :
  let this := Demo.session "A" 2 APPEND in
  let C := Demo.bytes_of "foo" in
  let B := Demo.bytes_of "abc" in
  let r := write this [] 0 Demo.w_foo in
  let r' := write this B 3 Demo.w_foo_tight in
  (nodes Demo.w_foo !! path_of this = Some (RegularFile C)
   /\ fst (fst r) = true
   /\ nodes (snd r) !! path_of this = Some (RegularFile (C ++ []))
   /\ tell (snd (fst r)) = 0
   /\ tell (snd (fst r)) <> Z.of_nat (length (C ++ [])))
  /\ (nodes Demo.w_foo_tight !! path_of this = Some (RegularFile C)
      /\ nodes (snd r') !! path_of this
         = Some (RegularFile (Demo.bytes_of "fooab"))
      /\ nodes (snd r') !! path_of this <> Some (RegularFile (C ++ B))
      /\ tell (snd (fst r')) = 6
      /\ fst (getSize (snd (fst r')) (snd r')) = 5).
Proof. by vm_compute. Qed.

(** ** The further properties at concrete inputs *)

(** [getExists_and_getFileSize_agree] on the store holding ["foo"]. *)
Lemma getExists_and_getFileSize_witness :
  store_size Demo.w_foo (filename_of ("A" : @LLUUID Demo.cache) Demo.AT_TEXTURE)
    <= getMaxSize
  /\ fst (getExists "A" Demo.AT_TEXTURE Demo.w_foo) = true
  /\ 1 <= fst (getFileSize "A" Demo.AT_TEXTURE Demo.w_foo).
Proof.
  assert (Hfits : store_size Demo.w_foo
                    (filename_of ("A" : @LLUUID Demo.cache) Demo.AT_TEXTURE)
                  <= getMaxSize) by (by vm_compute).
  assert (Hex : fst (getExists "A" Demo.AT_TEXTURE Demo.w_foo) = true)
    by (by vm_compute).
  split; [exact Hfits|]. split; [exact Hex|].
  exact (proj1 (getExists_and_getFileSize_agree Demo.w_foo "A"
                  Demo.AT_TEXTURE Hfits) Hex).
Defined.

(** [short_read_reaches_eof]: 5 bytes asked for at cursor 1 of ["foo"]. *)
Lemma short_read_reaches_eof_witness :
  let this := Demo.session "A" 1 READ in
  let r := read this 5 Demo.w_foo in
  nodes Demo.w_foo !! path_of this = Some (RegularFile (Demo.bytes_of "foo"))
  /\ Z.of_nat (length (Demo.bytes_of "foo")) <= getMaxSize
  /\ 0 <= mPosition this <= INT_MAX
  /\ 0 <= 5 <= INT_MAX
  /\ Z.of_nat (length (snd (fst (fst r)))) < 5
  /\ fst (eof (snd (fst r)) (snd r)) = true.
Proof.
  intros this r.
  assert (Hn : nodes Demo.w_foo !! path_of this
               = Some (RegularFile (Demo.bytes_of "foo"))) by (by vm_compute).
  assert (Hfits : Z.of_nat (length (Demo.bytes_of "foo")) <= getMaxSize)
    by (by vm_compute).
  assert (Hpos : 0 <= mPosition this <= INT_MAX) by (by vm_compute).
  assert (Hbytes : 0 <= 5 <= INT_MAX) by (by vm_compute).
  assert (Hshort : Z.of_nat (length (snd (fst (fst r)))) < 5)
    by (by vm_compute).
  split; [exact Hn|]. split; [exact Hfits|]. split; [exact Hpos|].
  split; [exact Hbytes|]. split; [exact Hshort|].
  exact (short_read_reaches_eof Demo.w_foo this 5 _ Hn Hfits Hpos Hbytes
           Hshort).
Defined.

(** [read_at_eof_obtains_nothing] with the cursor at the end of ["foo"]. *)
Lemma read_at_eof_witness :
  let this := Demo.session "A" 3 READ in
  let r := read this 5 Demo.w_foo in
  store_size Demo.w_foo (path_of this) <= getMaxSize
  /\ is_S32 (mPosition this)
  /\ fst (eof this Demo.w_foo) = true
  /\ fst (fst (fst r)) = false
  /\ snd (fst (fst r)) = []
  /\ tell (snd (fst r)) = tell this.
Proof.
  intros this r.
  assert (Hfits : store_size Demo.w_foo (path_of this) <= getMaxSize)
    by (by vm_compute).
  assert (Hpos : is_S32 (mPosition this)) by (by vm_compute).
  assert (Heof : fst (eof this Demo.w_foo) = true) by (by vm_compute).
  split; [exact Hfits|]. split; [exact Hpos|]. split; [exact Heof|].
  exact (read_at_eof_obtains_nothing Demo.w_foo this 5 Hfits Hpos Heof).
Defined.

(** [truncating_write_replaces_store]: ["XY"] written in mode [WRITE] over
    ["foo"], from a session whose cursor was at 2. *)
Lemma truncating_write_witness :
  let this := Demo.session "A" 2 WRITE in
  let buffer := Demo.bytes_of "XY" in
  let r := write this buffer 2 Demo.w_foo in
  let data := content_at (snd r) (path_of this) in
  mMode this <> APPEND
  /\ mMode this <> READ_WRITE
  /\ (forall n, nodes Demo.w_foo !! path_of this <> Some (Directory n))
  /\ 0 <= 2 <= INT_MAX
  /\ (Z.to_nat 2 <= free_space Demo.w_foo)%nat
  /\ (Z.to_nat 2 <= length buffer)%nat
  /\ nodes (snd r) !! path_of this = Some (RegularFile data)
  /\ data = take (length data) buffer
  /\ (length data <= Z.to_nat 2)%nat
  /\ data = take (Z.to_nat 2) buffer
  /\ tell (snd (fst r)) = 2
  /\ fst (fst r) = true.
Proof.
  intros this buffer r data.
  assert (Ha : mMode this <> APPEND) by (by vm_compute).
  assert (Hrw : mMode this <> READ_WRITE) by (by vm_compute).
  assert (Hn : forall n, nodes Demo.w_foo !! path_of this <> Some (Directory n))
    by (intros n; by vm_compute).
  assert (Hbytes : 0 <= 2 <= INT_MAX) by (by vm_compute).
  assert (Hroom : (Z.to_nat 2 <= free_space Demo.w_foo)%nat)
    by (vm_compute; lia).
  assert (Hbuf : (Z.to_nat 2 <= length buffer)%nat) by (vm_compute; lia).
  split; [exact Ha|]. split; [exact Hrw|]. split; [exact Hn|].
  split; [exact Hbytes|]. split; [exact Hroom|]. split; [exact Hbuf|].
  destruct (truncating_write_replaces_store Demo.w_foo this buffer 2
              Ha Hrw Hn Hbytes) as (H1 & H2 & H3 & H4).
  split; [exact H1|]. split; [exact H2|]. split; [exact H3|].
  exact (H4 Hroom Hbuf).
Defined.

(** [truncating_write_then_size_and_exists] on a write of nothing over
    ["foo"]. *)
Lemma truncating_write_then_size_witness :
  let this := Demo.session "A" 0 WRITE in
  let r := write this [] 0 Demo.w_foo in
  mMode this <> APPEND
  /\ mMode this <> READ_WRITE
  /\ (forall n, nodes Demo.w_foo !! path_of this <> Some (Directory n))
  /\ 0 <= 0 <= INT_MAX
  /\ (Z.to_nat 0 <= free_space Demo.w_foo)%nat
  /\ (Z.to_nat 0 <= length ([] : list byte))%nat
  /\ fst (getFileSize (mFileID this) (mFileType this) (snd r)) = 0
  /\ (fst (getExists (mFileID this) (mFileType this) (snd r)) = true
      <-> 0 < 0).
Proof.
  intros this r.
  assert (Ha : mMode this <> APPEND) by (by vm_compute).
  assert (Hrw : mMode this <> READ_WRITE) by (by vm_compute).
  assert (Hn : forall n, nodes Demo.w_foo !! path_of this <> Some (Directory n))
    by (intros n; by vm_compute).
  assert (Hbytes : 0 <= 0 <= INT_MAX) by (by vm_compute).
  assert (Hroom : (Z.to_nat 0 <= free_space Demo.w_foo)%nat)
    by (vm_compute; lia).
  assert (Hbuf : (Z.to_nat 0 <= length ([] : list byte))%nat)
    by (vm_compute; lia).
  split; [exact Ha|]. split; [exact Hrw|]. split; [exact Hn|].
  split; [exact Hbytes|]. split; [exact Hroom|]. split; [exact Hbuf|].
  exact (truncating_write_then_size_and_exists Demo.w_foo this [] 0
           Ha Hrw Hn Hbytes Hroom Hbuf).
Defined.

(** [write_then_read_round_trip] with ["0123456789"] on an empty volume. *)
Lemma write_then_read_round_trip_witness :
  let this := Demo.session "A" 0 WRITE in
  let reader := Demo.session "A" 0 READ in
  let buffer := Demo.bytes_of "0123456789" in
  let bytes := Z.of_nat (length buffer) in
  let written := write this buffer bytes Demo.w_blank in
  let r := read reader bytes (snd written) in
  mMode this <> APPEND
  /\ mMode this <> READ_WRITE
  /\ (forall n, nodes Demo.w_blank !! path_of this <> Some (Directory n))
  /\ Z.of_nat (length buffer) <= INT_MAX
  /\ (length buffer <= free_space Demo.w_blank)%nat
  /\ path_of reader = path_of this
  /\ mPosition reader = 0
  /\ fst (fst written) = true
  /\ snd (fst (fst r)) = buffer
  /\ tell (snd (fst r)) = bytes
  /\ (fst (fst (fst r)) = true <-> buffer <> []).
Proof.
  intros this reader buffer bytes written r.
  assert (Ha : mMode this <> APPEND) by (by vm_compute).
  assert (Hrw : mMode this <> READ_WRITE) by (by vm_compute).
  assert (Hn : forall n, nodes Demo.w_blank !! path_of this <> Some (Directory n))
    by (intros n; by vm_compute).
  assert (Hlen : Z.of_nat (length buffer) <= INT_MAX) by (by vm_compute).
  assert (Hpath : path_of reader = path_of this) by reflexivity.
  assert (Hzero : mPosition reader = 0) by reflexivity.
  assert (Hroom : (length buffer <= free_space Demo.w_blank)%nat)
    by (vm_compute; lia).
  split; [exact Ha|]. split; [exact Hrw|]. split; [exact Hn|].
  split; [exact Hlen|]. split; [exact Hroom|]. split; [exact Hpath|].
  split; [exact Hzero|].
  exact (write_then_read_round_trip Demo.w_blank this reader buffer
           Ha Hrw Hn Hlen Hroom Hpath Hzero).
Defined.

(** [write_touches_only_own_path]: a truncating write on ["A"] leaves the
    store of ["B"] alone. *)
Lemma write_touches_only_own_path_witness :
  let this := Demo.session "A" 0 WRITE in
  Demo.path_B <> path_of this
  /\ nodes (snd (write this (Demo.bytes_of "abc") 3 Demo.w_xy)) !! Demo.path_B
     = nodes Demo.w_xy !! Demo.path_B.
Proof.
  intros this.
  assert (Hq : Demo.path_B <> path_of this) by (by vm_compute).
  split; [exact Hq|].
  exact (write_touches_only_own_path Demo.w_xy this (Demo.bytes_of "abc") 3
           Demo.path_B Hq).
Defined.

(** [append_twice]: ["ab"] and then ["c"] appended to ["foo"]. *)
Lemma append_twice_witness :
  let this := Demo.session "A" 0 APPEND in
  let C := Demo.bytes_of "foo" in
  let B1 := Demo.bytes_of "ab" in
  let B2 := Demo.bytes_of "c" in
  let r1 := write this B1 (Z.of_nat (length B1)) Demo.w_foo in
  let r2 := write (snd (fst r1)) B2 (Z.of_nat (length B2)) (snd r1) in
  mMode this = APPEND
  /\ nodes Demo.w_foo !! path_of this = Some (RegularFile C)
  /\ Z.of_nat (length (C ++ B1 ++ B2)) <= getMaxSize
  /\ (length B1 + length B2 <= free_space Demo.w_foo)%nat
  /\ fst (fst r1) = true
  /\ fst (fst r2) = true
  /\ nodes (snd r2) !! path_of this = Some (RegularFile (C ++ B1 ++ B2)).
Proof.
  intros this C B1 B2 r1 r2.
  assert (Hm : mMode this = APPEND) by reflexivity.
  assert (Hn : nodes Demo.w_foo !! path_of this = Some (RegularFile C))
    by (by vm_compute).
  assert (Hfits : Z.of_nat (length (C ++ B1 ++ B2)) <= getMaxSize)
    by (by vm_compute).
  assert (Hroom : (length B1 + length B2 <= free_space Demo.w_foo)%nat)
    by (vm_compute; lia).
  split; [exact Hm|]. split; [exact Hn|]. split; [exact Hfits|].
  split; [exact Hroom|].
  exact (append_twice Demo.w_foo this C B1 B2 Hm Hn Hfits Hroom).
Defined.

(** [renameFile_moves_the_store]: ["A"] (holding ["x"]) renamed over ["B"]
    (holding ["y"]). *)
Lemma renameFile_moves_witness :
  let old_filename := filename_of ("A" : @LLUUID Demo.cache) Demo.AT_TEXTURE in
  let new_filename := filename_of ("B" : @LLUUID Demo.cache) Demo.AT_TEXTURE in
  let r := renameFile "A" Demo.AT_TEXTURE "B" Demo.AT_TEXTURE Demo.w_xy in
  nodes Demo.w_xy !! old_filename = Some (RegularFile (Demo.bytes_of "x"))
  /\ old_filename <> new_filename
  /\ (forall n, nodes Demo.w_xy !! new_filename <> Some (Directory n))
  /\ nodes (snd r) !! new_filename = Some (RegularFile (Demo.bytes_of "x"))
  /\ nodes (snd r) !! old_filename = None
  /\ (forall q, q <> old_filename -> q <> new_filename ->
      nodes (snd r) !! q = nodes Demo.w_xy !! q)
  /\ llwarns (snd r) = llwarns Demo.w_xy.
Proof.
  intros old_filename new_filename r.
  assert (Hold : nodes Demo.w_xy !! old_filename
                 = Some (RegularFile (Demo.bytes_of "x"))) by (by vm_compute).
  assert (Hne : old_filename <> new_filename) by (by vm_compute).
  assert (Hnodir : forall n, nodes Demo.w_xy !! new_filename
                            <> Some (Directory n))
    by (intros n; by vm_compute).
  split; [exact Hold|]. split; [exact Hne|]. split; [exact Hnodir|].
  exact (renameFile_moves_the_store Demo.w_xy "A" Demo.AT_TEXTURE "B"
           Demo.AT_TEXTURE _ Hold Hne Hnodir).
Defined.

(** [renameFile_onto_itself_loses_the_store] on the store holding
    ["foo"]. *)
Lemma renameFile_onto_itself_witness :
  let filename := filename_of ("A" : @LLUUID Demo.cache) Demo.AT_TEXTURE in
  let r := renameFile "A" Demo.AT_TEXTURE "A" Demo.AT_TEXTURE Demo.w_foo in
  filename_of ("A" : @LLUUID Demo.cache) Demo.AT_TEXTURE = filename
  /\ nodes Demo.w_foo !! filename = Some (RegularFile (Demo.bytes_of "foo"))
  /\ fst r = true
  /\ nodes (snd r) = delete filename (nodes Demo.w_foo)
  /\ llwarns (snd r)
     = llwarns Demo.w_foo ++ [FailedToRename "A" "A" ENOENT].
Proof.
  intros filename r.
  assert (Hsame : filename_of ("A" : @LLUUID Demo.cache) Demo.AT_TEXTURE
                  = filename) by reflexivity.
  assert (Hn : nodes Demo.w_foo !! filename
               = Some (RegularFile (Demo.bytes_of "foo"))) by (by vm_compute).
  split; [exact Hsame|]. split; [exact Hn|].
  exact (renameFile_onto_itself_loses_the_store Demo.w_foo "A"
           Demo.AT_TEXTURE "A" Demo.AT_TEXTURE _ Hsame Hn).
Defined.

(** [remove_keeps_the_cursor] on a session with its cursor at 2 of
    ["foo"]. *)
Lemma remove_keeps_the_cursor_witness :
  let this := Demo.session "A" 2 READ in
  let r := remove this Demo.w_foo in
  nodes Demo.w_foo !! path_of this = Some (RegularFile (Demo.bytes_of "foo"))
  /\ fst r = (true, this)
  /\ nodes (snd r) = delete (path_of this) (nodes Demo.w_foo)
  /\ llwarns (snd r) = llwarns Demo.w_foo
  /\ fst (getSize this (snd r)) = 0
  /\ fst (getExists (mFileID this) (mFileType this) (snd r)) = false.
Proof.
  intros this r.
  assert (Hn : nodes Demo.w_foo !! path_of this
               = Some (RegularFile (Demo.bytes_of "foo"))) by (by vm_compute).
  split; [exact Hn|].
  exact (remove_keeps_the_cursor Demo.w_foo this _ Hn).
Defined.

(** [rename_then_read_same_bytes]: a session at cursor 1 of ["foo"],
    renamed from ["A"] to ["B"]. *)
Lemma rename_then_read_witness :
  let this := Demo.session "A" 1 READ in
  let renamed := rename this "B" Demo.AT_TEXTURE Demo.w_foo in
  let r1 := read (snd (fst renamed)) 5 (snd renamed) in
  let r0 := read this 5 Demo.w_foo in
  nodes Demo.w_foo !! path_of this = Some (RegularFile (Demo.bytes_of "foo"))
  /\ path_of this <> filename_of ("B" : @LLUUID Demo.cache) Demo.AT_TEXTURE
  /\ (forall n, nodes Demo.w_foo
                  !! filename_of ("B" : @LLUUID Demo.cache) Demo.AT_TEXTURE
                <> Some (Directory n))
  /\ fst (fst r1) = fst (fst r0)
  /\ tell (snd (fst r1)) = tell (snd (fst r0)).
Proof.
  intros this renamed r1 r0.
  assert (Hn : nodes Demo.w_foo !! path_of this
               = Some (RegularFile (Demo.bytes_of "foo"))) by (by vm_compute).
  assert (Hne : path_of this
                <> filename_of ("B" : @LLUUID Demo.cache) Demo.AT_TEXTURE)
    by (by vm_compute).
  assert (Hnodir : forall n, nodes Demo.w_foo
                     !! filename_of ("B" : @LLUUID Demo.cache) Demo.AT_TEXTURE
                   <> Some (Directory n))
    by (intros n; by vm_compute).
  split; [exact Hn|]. split; [exact Hne|]. split; [exact Hnodir|].
  exact (rename_then_read_same_bytes Demo.w_foo this "B" Demo.AT_TEXTURE 5 _
           Hn Hne Hnodir).
Defined.

(** [consecutive_reads_concatenate]: reads of 1 and of 5 bytes from the
    start of ["foo"]. *)
Lemma consecutive_reads_witness :
  let this := Demo.session "A" 0 READ in
  let c := Demo.bytes_of "foo" in
  let r1 := read this 1 Demo.w_foo in
  let r2 := read (snd (fst r1)) 5 (snd r1) in
  let r := read this (1 + 5) Demo.w_foo in
  nodes Demo.w_foo !! path_of this = Some (RegularFile c)
  /\ Z.of_nat (length c) <= getMaxSize
  /\ 0 <= mPosition this <= INT_MAX
  /\ 0 <= 1 /\ 0 <= 5 /\ 1 + 5 <= INT_MAX
  /\ snd (fst (fst r1)) ++ snd (fst (fst r2)) = snd (fst (fst r))
  /\ tell (snd (fst r2)) = tell (snd (fst r)).
Proof.
  intros this c r1 r2 r.
  assert (Hn : nodes Demo.w_foo !! path_of this = Some (RegularFile c))
    by (by vm_compute).
  assert (Hfits : Z.of_nat (length c) <= getMaxSize) by (by vm_compute).
  assert (Hpos : 0 <= mPosition this <= INT_MAX) by (by vm_compute).
  assert (Ha : 0 <= 1) by (by vm_compute).
  assert (Hb : 0 <= 5) by (by vm_compute).
  assert (Hab : 1 + 5 <= INT_MAX) by (by vm_compute).
  split; [exact Hn|]. split; [exact Hfits|]. split; [exact Hpos|].
  split; [exact Ha|]. split; [exact Hb|]. split; [exact Hab|].
  exact (consecutive_reads_concatenate Demo.w_foo this 1 5 c
           Hn Hfits Hpos Ha Hb Hab).
Defined.

(** [relative_seeks_compose]: forward by 3 and back by 2 on ["foo"]. *)
Lemma relative_seeks_witness :
  let this := Demo.session "A" 0 READ in
  let r1 := seek this 3 (-1) Demo.w_foo in
  let r2 := seek (snd (fst r1)) (-2) (-1) (snd r1) in
  fst (fst r1) = true
  /\ fst (fst r2) = true
  /\ fst (seek this (3 + -2) (-1) Demo.w_foo) = (true, snd (fst r2)).
Proof.
  intros this r1 r2.
  assert (Hs1 : fst (fst r1) = true) by (by vm_compute).
  assert (Hs2 : fst (fst r2) = true) by (by vm_compute).
  split; [exact Hs1|]. split; [exact Hs2|].
  exact (relative_seeks_compose Demo.w_foo this 3 (-2) Hs1 Hs2).
Defined.

(** [seek_past_end_reaches_eof]: a seek to offset 7 of ["foo"]. *)
Lemma seek_past_end_witness :
  let this := Demo.session "A" 1 READ in
  let r := seek this 7 0 Demo.w_foo in
  fst (getSize this Demo.w_foo)
    < s32 ((if -1 =? 0 then mPosition this else 0) + 7)
  /\ fst (fst r) = false
  /\ fst (eof (snd (fst r)) (snd r)) = true.
Proof.
  intros this r.
  assert (Hpast : fst (getSize this Demo.w_foo)
                  < s32 ((if -1 =? 0 then mPosition this else 0) + 7))
    by (by vm_compute).
  split; [exact Hpast|].
  exact (seek_past_end_reaches_eof Demo.w_foo this 7 0 Hpast).
Defined.

(** [append_creates_missing_store]: ["abc"] appended on an empty volume. *)
Lemma append_creates_witness :
  let this := Demo.session "A" 0 APPEND in
  let buffer := Demo.bytes_of "abc" in
  let r := write this buffer 3 Demo.w_blank in
  let data := content_at (snd r) (path_of this) in
  mMode this = APPEND
  /\ nodes Demo.w_blank !! path_of this = None
  /\ 0 <= 3 <= INT_MAX
  /\ (Z.to_nat 3 <= free_space Demo.w_blank)%nat
  /\ (Z.to_nat 3 <= length buffer)%nat
  /\ nodes (snd r) !! path_of this = Some (RegularFile data)
  /\ data = take (length data) buffer
  /\ (length data <= Z.to_nat 3)%nat
  /\ data = take (Z.to_nat 3) buffer
  /\ tell (snd (fst r)) = 3
  /\ fst (fst r) = true.
Proof.
  intros this buffer r data.
  assert (Hm : mMode this = APPEND) by reflexivity.
  assert (Hn : nodes Demo.w_blank !! path_of this = None) by (by vm_compute).
  assert (Hbytes : 0 <= 3 <= INT_MAX) by (by vm_compute).
  assert (Hroom : (Z.to_nat 3 <= free_space Demo.w_blank)%nat)
    by (vm_compute; lia).
  assert (Hbuf : (Z.to_nat 3 <= length buffer)%nat) by (vm_compute; lia).
  split; [exact Hm|]. split; [exact Hn|]. split; [exact Hbytes|].
  split; [exact Hroom|]. split; [exact Hbuf|].
  destruct (append_creates_missing_store Demo.w_blank this buffer 3
              Hm Hn Hbytes) as (H1 & H2 & H3 & H4).
  split; [exact H1|]. split; [exact H2|]. split; [exact H3|].
  exact (H4 Hroom Hbuf).
Defined.

(** [cursor_within_store] after a construction, a seek and an appending
    write on a volume with room for it. *)
Lemma cursor_within_store_witness :
  let st0 := LLFileSystem_new "A" Demo.AT_TEXTURE APPEND Demo.w_foo in
  let st1 := exec (OpSeek 1 0) (fst st0) (snd st0) in
  let st2 := exec (OpWrite (Demo.bytes_of "abc") 3) (fst st1) (snd st1) in
  reachable (snd st2) (fst st2)
  /\ 0 <= tell (fst st2) <= fst (getSize (fst st2) (snd st2)).
Proof.
  intros st0 st1 st2.
  assert (Hreach : reachable (snd st2) (fst st2)).
  { apply reach_step; [apply reach_step; [apply reach_new|exact I|]| |].
    - vm_compute; discriminate.
    - vm_compute; discriminate.
    - vm_compute; lia.
    - vm_compute; discriminate. }
  split; [exact Hreach|].
  exact (cursor_within_store (snd st2) (fst st2) Hreach).
Defined.
